(** * State 51 detector: anomaly detection and daily report engine

    A shallow embedding of the two services that carry the logic of the
    application:

    - [SensorMonitor]   (per-sample rule evaluation, frequency buffers,
                         anomaly recording and alerting);
    - [DatabaseService] (the SQLite tables, pattern analysis, trend
                         calculation and the daily report).

    JavaScript numbers are IEEE-754 binary64 values; they are modelled by
    Rocq's primitive floats, so that [0 / 0] is NaN, [x / 0] is an infinity
    and decimal literals such as [0.077] denote the same double as in the
    source.  Millisecond timestamps and array lengths are integers in the
    source; they are kept in [Z] and [nat] and converted (exactly, below
    2^53) where the source divides them. *)

From Stdlib Require Import ZArith List String Ascii Floats Bool Lia DecimalString.
From stdpp Require Import gmap strings.
Import ListNotations.

Set Warnings "-inexact-float".

(* ===================================================================== *)
(** ** JavaScript numbers and strings *)
(* ===================================================================== *)

Module Js.
Local Open Scope float_scope.

(** An integer seen as a number (round to nearest even; exact below 2^53). *)
Definition Z2F (z : Z) : float := SF2Prim (binary_normalize prec emax z 0 false).

(** [array.length] as a number. *)
Definition len {A} (l : list A) : float := Z2F (Z.of_nat (length l)).

(** ToBoolean on a number: false for +0, -0 and NaN. *)
Definition truthy (x : float) : bool :=
  negb (PrimFloat.eqb x 0 || PrimFloat.is_nan x).

(** [x || 0] on numbers. *)
Definition orZero (x : float) : float := if truthy x then x else 0.

(** [s || d] on strings: the empty string is falsy. *)
Definition orString (s d : string) : string :=
  match s with EmptyString => d | _ => s end.

(** The relational operators; every comparison with NaN is false. *)
Definition lt (x y : float) : bool := PrimFloat.ltb x y.
Definition gt (x y : float) : bool := PrimFloat.ltb y x.

(** [x ** 2], taken as the correctly rounded square. *)
Definition sq (x : float) : float := x * x.

(** [String.prototype.includes]. *)
Fixpoint includes (s sub : string) : bool :=
  String.prefix sub s ||
  match s with
  | EmptyString => false
  | String _ s' => includes s' sub
  end.

(** Decimal digits of a non-negative integer. *)
Definition string_of_Z (z : Z) : string :=
  NilZero.string_of_uint (N.to_uint (Z.to_N z)).

(** The integer [n] for which [n / 10 - |x|] is closest to zero, the larger
    one on a tie: [floor (10 * |x| + 1/2)], computed on the exact value
    [m * 2^e] of the double. *)
Definition scaled10 (x : float) : Z :=
  match Prim2SF x with
  | S754_finite _ m e =>
      if (0 <=? e)%Z then (10 * Z.pos m * 2 ^ e)%Z
      else ((20 * Z.pos m + 2 ^ (- e)) / 2 ^ (- e + 1))%Z
  | _ => 0%Z
  end.

Definition numDigits (v : Z) : Z := Z.of_nat (String.length (string_of_Z v)).

Fixpoint zeros (n : nat) : string :=
  match n with
  | O => ""
  | S n' => String "0" (zeros n')
  end.

(** *** Number::toString

    A positive finite double [x = m * 2^e] is printed with the fewest
    decimal digits [s] (a [k]-digit integer, scaled by [10^t]) that read
    back as [x]: [s * 10^t] has to lie in the rounding interval of [x],
    between the midpoints to its two neighbours, ends included when [m] is
    even.  Bounds and value are kept as numerators over the common
    denominator [D]. *)

Record Interval := {
  lowNum : Z;
  valNum : Z;
  highNum : Z;
  den : Z;
  inclusive : bool
}.

Definition roundingInterval (m : positive) (e : Z) : Interval :=
  let E := (e - 2)%Z in
  let up := (2 ^ Z.max E 0)%Z in
  let narrowBelow := (Z.pos m =? 2 ^ 52)%Z && (-1074 <? e)%Z in
  {| lowNum := ((if narrowBelow then 4 * Z.pos m - 1 else 4 * Z.pos m - 2) * up)%Z;
     valNum := (4 * Z.pos m * up)%Z;
     highNum := ((4 * Z.pos m + 2) * up)%Z;
     den := (2 ^ Z.max (- E) 0)%Z;
     inclusive := Z.even (Z.pos m) |}.

Fixpoint searchExponent (i : Interval) (n : Z) (fuel : nat) : Z :=
  match fuel with
  | O => n
  | S fuel' =>
      if (den i <=? valNum i * 10 ^ (1 - n))%Z then n
      else searchExponent i (n - 1) fuel'
  end.

(** The [n] with [10^(n-1) <= x < 10^n]. *)
Definition decimalExponent (i : Interval) : Z :=
  if (den i <=? valNum i)%Z then numDigits (valNum i / den i)
  else searchExponent i 0 400.

Fixpoint shortestDigits (i : Interval) (n : Z) (k : nat) (fuel : nat) : Z * Z :=
  match fuel with
  | O => (0, 0)%Z
  | S fuel' =>
      let t := (n - Z.of_nat k)%Z in
      let P := (10 ^ Z.max t 0)%Z in
      let Q := (10 ^ Z.max (- t) 0)%Z in
      let s := ((valNum i * Q) / (den i * P))%Z in
      let inside (v : Z) :=
        let a := (v * P * den i)%Z in
        if inclusive i
        then (lowNum i * Q <=? a)%Z && (a <=? highNum i * Q)%Z
        else (lowNum i * Q <? a)%Z && (a <? highNum i * Q)%Z in
      let okLo := inside s && (0 <? s)%Z in
      let okHi := inside (s + 1)%Z in
      let dLo := (valNum i * Q - s * P * den i)%Z in
      let dHi := ((s + 1) * P * den i - valNum i * Q)%Z in
      let preferLo := (dLo <? dHi)%Z || ((dLo =? dHi)%Z && Z.even s) in
      if okLo && (negb okHi || preferLo) then (s, t)
      else if okHi then ((s + 1)%Z, t)
      else shortestDigits i n (S k) fuel'
  end.

Fixpoint stripZeros (fuel : nat) (s t : Z) : Z * Z :=
  match fuel with
  | O => (s, t)
  | S fuel' =>
      if (s mod 10 =? 0)%Z then stripZeros fuel' (s / 10)%Z (t + 1)%Z else (s, t)
  end.

(** The layout of the digits [s] (of length [k]) for the exponent [n]. *)
Definition layout (digits : string) (n : Z) : string :=
  let k := Z.of_nat (String.length digits) in
  if (k <=? n)%Z && (n <=? 21)%Z then digits ++ zeros (Z.to_nat (n - k))
  else if (0 <? n)%Z && (n <=? 21)%Z then
    substring 0 (Z.to_nat n) digits ++ "."
      ++ substring (Z.to_nat n) (Z.to_nat (k - n)) digits
  else if (-6 <? n)%Z && (n <=? 0)%Z then "0." ++ zeros (Z.to_nat (- n)) ++ digits
  else
    let e := ((if (0 <=? n - 1)%Z then "+" else "-") ++ string_of_Z (Z.abs (n - 1)))%string in
    match digits with
    | String d EmptyString => String d ("e" ++ e)
    | String d rest => String d ("." ++ rest ++ "e" ++ e)
    | EmptyString => EmptyString
    end.

Definition numberToString (x : float) : string :=
  match Prim2SF x with
  | S754_nan => "NaN"
  | S754_zero _ => "0"
  | S754_infinity sign => if sign then "-Infinity" else "Infinity"
  | S754_finite sign m e =>
      let i := roundingInterval m e in
      let '(s0, t0) := shortestDigits i (decimalExponent i) 1 18 in
      let '(s, t) := stripZeros 18 s0 t0 in
      let digits := string_of_Z s in
      (if sign then "-" else "")
        ++ layout digits (Z.of_nat (String.length digits) + t)
  end.

(** [Number.prototype.toFixed(1)]. *)
Definition toFixed1 (x : float) : string :=
  if PrimFloat.is_nan x then "NaN"
  else if PrimFloat.eqb x infinity then "Infinity"
  else if PrimFloat.eqb x neg_infinity then "-Infinity"
  else
    let sign := if PrimFloat.ltb x 0 then "-" else "" in
    let ax := PrimFloat.abs x in
    if PrimFloat.leb 1e21 ax then sign ++ numberToString ax
    else
      let n := scaled10 ax in
      sign ++ string_of_Z (n / 10) ++ "." ++ string_of_Z (n mod 10).

End Js.

(* ===================================================================== *)
(** ** Records shared by the two services *)
(* ===================================================================== *)

(** A raw three-axis sensor reading. *)
Record Reading := { rx : float; ry : float; rz : float }.

(** The object literal a rule hands to [recordAnomaly]. *)
Record Detection := {
  type : string;
  value : float;
  message : string;
  significance : string;
  data : option Reading;
  targetFreq : option float
}.

(** The same object once [recordAnomaly] has stamped it. *)
Record Anomaly := {
  detail : Detection;
  timestamp : Z;
  cosmicWindow : bool
}.

(** The argument of [generateDailyReport], by the three observations the
    function makes of it: local midnight ([setHours(0,0,0,0)]), the last
    millisecond of the local day ([setHours(23,59,59,999)]) and the date
    part of [toISOString()]. *)
Record JsDate := {
  startOfDay : Z;
  endOfDay : Z;
  isoDate : string
}.

(* ===================================================================== *)
(** ** DatabaseService *)
(* ===================================================================== *)

Module DatabaseService.
Import Js.
Local Open Scope float_scope.

(** *** Tables (the schema of [initialize]) *)

Record AnomalyRow := {
  ar_id : Z;
  ar_timestamp : Z;
  ar_type : string;
  ar_value : float;
  ar_significance : string;
  ar_cosmic_window : Z;
  ar_message : string;
  ar_data : option Reading
}.

Record ScanRow := {
  sr_id : Z;
  sr_timestamp : Z;
  sr_battery_level : float;
  sr_magnetic_field : float;
  sr_acceleration : float;
  sr_rotation : float;
  sr_pressure : float;
  sr_gps_accuracy : float;
  sr_network_type : string;
  sr_anomaly_count : Z;
  sr_cosmic_window : Z;
  sr_state51_active : Z
}.

Record Trends := {
  battery : string;
  magnetic : string;
  scanCount : nat
}.

Record State51Effect := {
  activePeriods : nat;
  anomalyRate : float;
  correlation : string
}.

Record Report := {
  date : string;
  totalAnomalies : nat;
  highSignificance : nat;
  cosmicWindowAnomalies : nat;
  state51Correlations : nat;
  batteryAnomalies : nat;
  magneticAnomalies : nat;
  frequencyMatches : nat;
  trends : option Trends;
  state51Effect : State51Effect;
  keyFindings : list string
}.

(** A row of [daily_reports]; the [date] column is [UNIQUE]. *)
Record ReportRow := {
  dr_id : Z;
  dr_date : string;
  dr_total_anomalies : nat;
  dr_high_significance_count : nat;
  dr_cosmic_window_anomalies : nat;
  dr_state51_correlations : nat;
  dr_battery_anomalies : nat;
  dr_magnetic_anomalies : nat;
  dr_frequency_matches : nat;
  dr_report_data : Report
}.

(** The database file: rows in insertion order and, per table, the largest
    row id handed out so far ([AUTOINCREMENT]). *)
Record Tables := {
  anomalies : list AnomalyRow;
  anomalies_seq : Z;
  scans : list ScanRow;
  scans_seq : Z;
  daily_reports : list ReportRow;
  daily_reports_seq : Z
}.

Definition emptyTables : Tables :=
  {| anomalies := []; anomalies_seq := 0;
     scans := []; scans_seq := 0;
     daily_reports := []; daily_reports_seq := 0 |}.

(** [this.db] is [null] until [initialize] has opened the file; every
    statement on a [null] handle rejects. [CREATE TABLE IF NOT EXISTS] keeps
    what the file already holds. *)
Definition initialize (file : option Tables) : option Tables :=
  Some (match file with Some t => t | None => emptyTables end).

(** *** Inserts *)

Definition anomalyRow (id : Z) (a : Anomaly) : AnomalyRow :=
  {| ar_id := id;
     ar_timestamp := timestamp a;
     ar_type := type (detail a);
     ar_value := orZero (value (detail a));
     ar_significance := orString (significance (detail a)) "low";
     ar_cosmic_window := if cosmicWindow a then 1%Z else 0%Z;
     ar_message := orString (message (detail a)) "";
     ar_data := data (detail a) |}.

Definition saveAnomaly (a : Anomaly) (db : option Tables) : option Tables :=
  match db with
  | None => None
  | Some t =>
      let id := (anomalies_seq t + 1)%Z in
      Some {| anomalies := anomalies t ++ [anomalyRow id a]; anomalies_seq := id;
              scans := scans t; scans_seq := scans_seq t;
              daily_reports := daily_reports t;
              daily_reports_seq := daily_reports_seq t |}
  end.

(** *** Range queries *)

Definition inRange (startTime endTime t : Z) : bool :=
  (startTime <=? t)%Z && (t <=? endTime)%Z.

(** [ORDER BY]: a stable insertion sort; [before x y] tells that [x] has to
    stay ahead of [y]. *)
Fixpoint insertBy {A} (before : A -> A -> bool) (x : A) (l : list A) : list A :=
  match l with
  | [] => [x]
  | y :: l' => if before x y then x :: l else y :: insertBy before x l'
  end.

Definition orderBy {A} (before : A -> A -> bool) (l : list A) : list A :=
  fold_right (insertBy before) [] l.

Definition getAnomaliesFrom (t : Tables) (startTime endTime : Z) : list AnomalyRow :=
  orderBy (fun x y => (ar_timestamp y <=? ar_timestamp x)%Z)
    (List.filter (fun r => inRange startTime endTime (ar_timestamp r)) (anomalies t)).

Definition getScansFrom (t : Tables) (startTime endTime : Z) : list ScanRow :=
  orderBy (fun x y => (sr_timestamp x <=? sr_timestamp y)%Z)
    (List.filter (fun r => inRange startTime endTime (sr_timestamp r)) (scans t)).

Definition getAnomalies (startTime endTime : Z) (db : option Tables)
  : option (list AnomalyRow) :=
  match db with
  | None => None
  | Some t => Some (getAnomaliesFrom t startTime endTime)
  end.

Definition getScans (startTime endTime : Z) (db : option Tables)
  : option (list ScanRow) :=
  match db with
  | None => None
  | Some t => Some (getScansFrom t startTime endTime)
  end.

(** *** Pattern analysis *)

Record Patterns := {
  hasState51 : bool;
  hasMutation : bool;
  hasCosmicCorrelation : bool
}.

Record Analysis := {
  anomalyCount : nat;
  recentCount : nat;
  anomalySpike : bool;
  cosmicCorrelation : float;
  typeDistribution : gmap string nat;
  significanceDistribution : gmap string float;
  state51Count : nat;
  mutationCount : nat;
  patterns : Patterns
}.

(** The counters of the [forEach] loop. [cosmicTrue] and [cosmicFalse] are
    the two properties of [cosmicWindowCount]. *)
Record Counters := {
  typeCount : gmap string nat;
  cosmicTrue : nat;
  cosmicFalse : nat;
  significanceCount : gmap string float
}.

Definition initialCounters : Counters :=
  {| typeCount := ∅;
     cosmicTrue := 0;
     cosmicFalse := 0;
     significanceCount :=
       <["high" := 0]> (<["medium" := 0]> (<["low" := 0]> (<["critical" := 0]> ∅))) |}.

(** One iteration of the loop. [significanceCount[s] += 1] on a key that is
    not there adds one to [undefined], which leaves NaN. *)
Definition countAnomaly (c : Counters) (a : AnomalyRow) : Counters :=
  {| typeCount :=
       <[ar_type a := S (default 0%nat (typeCount c !! ar_type a))]> (typeCount c);
     cosmicTrue :=
       if (ar_cosmic_window a =? 1)%Z then S (cosmicTrue c) else cosmicTrue c;
     cosmicFalse :=
       if (ar_cosmic_window a =? 1)%Z then cosmicFalse c else S (cosmicFalse c);
     significanceCount :=
       <[ar_significance a :=
           match significanceCount c !! ar_significance a with
           | Some n => n + 1
           | None => nan
           end]> (significanceCount c) |}.

Definition num (n : nat) : float := Z2F (Z.of_nat n).

Definition isState51 (a : AnomalyRow) : bool :=
  includes (ar_type a) "51"
  || lt (abs (ar_value a - 51)) 1
  || lt (abs (ar_value a - 0.51)) 0.01.

Definition isMutation (a : AnomalyRow) : bool :=
  lt (abs (ar_value a - 0.077)) 0.001
  || lt (abs (ar_value a - 7.7)) 0.1
  || includes (ar_type a) "777".

(** The body of [analyzePatterns] once the two queries have answered. *)
Definition analyze (recentAnomalies dailyAnomalies : list AnomalyRow) : Analysis :=
  let c := fold_left countAnomaly dailyAnomalies initialCounters in
  let anomalySpike := gt (len recentAnomalies) (len dailyAnomalies / 24 * 2) in
  let cosmicCorrelation :=
    num (cosmicTrue c) / (num (cosmicTrue c) + num (cosmicFalse c)) in
  let state51Patterns := List.filter isState51 dailyAnomalies in
  let mutationPatterns := List.filter isMutation dailyAnomalies in
  {| anomalyCount := length dailyAnomalies;
     recentCount := length recentAnomalies;
     anomalySpike := anomalySpike;
     cosmicCorrelation := cosmicCorrelation;
     typeDistribution := typeCount c;
     significanceDistribution := significanceCount c;
     state51Count := length state51Patterns;
     mutationCount := length mutationPatterns;
     patterns :=
       {| hasState51 := (0 <? length state51Patterns)%nat;
          hasMutation := (0 <? length mutationPatterns)%nat;
          hasCosmicCorrelation := gt cosmicCorrelation 0.5 |} |}.

(** [analyzePatterns()]; [now] is the reading of [Date.now()]. *)
Definition analyzePatterns (now : Z) (db : option Tables) : option Analysis :=
  let oneHourAgo := (now - 3600000)%Z in
  let oneDayAgo := (now - 86400000)%Z in
  match getAnomalies oneHourAgo now db with
  | None => None
  | Some recentAnomalies =>
      match getAnomalies oneDayAgo now db with
      | None => None
      | Some dailyAnomalies => Some (analyze recentAnomalies dailyAnomalies)
      end
  end.

(** *** Trend of a series *)

Definition sum (l : list float) : float := fold_left (fun a b => a + b) l 0.

Definition halves (values : list float) : list float * list float :=
  let mid := (length values / 2)%nat in
  (firstn mid values, skipn mid values).

(** The percent change of the second-half mean relative to the first-half
    mean, as [calculateTrend] computes it after its length guard. *)
Definition percentChange (values : list float) : float :=
  let '(firstHalf, secondHalf) := halves values in
  let firstAvg := sum firstHalf / len firstHalf in
  let secondAvg := sum secondHalf / len secondHalf in
  let change := secondAvg - firstAvg in
  (change / firstAvg) * 100.

Definition calculateTrend (values : list float) : string :=
  if (length values <? 2)%nat then "stable"
  else
    let percentChange := percentChange values in
    if lt (abs percentChange) 1 then "stable"
    else if gt percentChange 0 then "increasing " ++ toFixed1 percentChange ++ "%"
    else "decreasing " ++ toFixed1 (abs percentChange) ++ "%".

(** *** Daily report *)

Definition count {A} (p : A -> bool) (l : list A) : nat := length (List.filter p l).

Definition isHighOrCritical (a : AnomalyRow) : bool :=
  String.eqb (ar_significance a) "high" || String.eqb (ar_significance a) "critical".

(** [Math.abs(s.timestamp - a.timestamp) < 60000]. *)
Definition near (a : AnomalyRow) (s : ScanRow) : bool :=
  (Z.abs (sr_timestamp s - ar_timestamp a) <? 60000)%Z.

Definition isActive (s : ScanRow) : bool := (sr_state51_active s =? 1)%Z.

(** The callback of the anomaly filter: the first scan within 60 seconds is
    looked up with [find], and it has to be an active one. *)
Definition attributedToActive (scans : list ScanRow) (a : AnomalyRow) : bool :=
  match find (near a) scans with
  | Some scan => isActive scan
  | None => false
  end.

Definition state51AnomalyRate (anomalies : list AnomalyRow) (scans : list ScanRow)
  : float :=
  let state51ActiveScans := List.filter isActive scans in
  if (0 <? length state51ActiveScans)%nat
  then num (count (attributedToActive scans) anomalies) / len state51ActiveScans
  else 0.

(** The report object, from the rows the two queries returned. *)
Definition buildReport (d : JsDate) (anomalies : list AnomalyRow)
    (scans : list ScanRow) : Report :=
  let totalAnomalies := length anomalies in
  let cosmicWindowAnomalies := count (fun a => (ar_cosmic_window a =? 1)%Z) anomalies in
  let state51Correlations := count (fun a => includes (ar_type a) "51") anomalies in
  let batteryAnomalies := count (fun a => includes (ar_type a) "battery") anomalies in
  let frequencyMatches := count (fun a => includes (ar_type a) "frequency") anomalies in
  let trends :=
    if (0 <? length scans)%nat
    then Some {| battery := calculateTrend (map sr_battery_level scans);
                 magnetic := calculateTrend (map sr_magnetic_field scans);
                 scanCount := length scans |}
    else None in
  let state51AnomalyRate := state51AnomalyRate anomalies scans in
  {| date := isoDate d;
     totalAnomalies := totalAnomalies;
     highSignificance := count isHighOrCritical anomalies;
     cosmicWindowAnomalies := cosmicWindowAnomalies;
     state51Correlations := state51Correlations;
     batteryAnomalies := batteryAnomalies;
     magneticAnomalies := count (fun a => includes (ar_type a) "magnetic") anomalies;
     frequencyMatches := frequencyMatches;
     trends := trends;
     state51Effect :=
       {| activePeriods := count isActive scans;
          anomalyRate := state51AnomalyRate;
          correlation := if gt state51AnomalyRate 0.1 then "positive" else "none" |};
     keyFindings :=
       (if (5 <? state51Correlations)%nat
        then ["Multiple State 51 resonances detected"] else [])
       ++ (if gt (num cosmicWindowAnomalies / num totalAnomalies) 0.5
           then ["High cosmic window correlation"] else [])
       ++ (if (0 <? batteryAnomalies)%nat
           then ["Battery anomalies detected"] else [])
       ++ (if (0 <? frequencyMatches)%nat
           then ["Quantum frequency matches found"] else []) |}.

(** [INSERT OR REPLACE INTO daily_reports]: the rows that collide with the
    new one on the [UNIQUE] column [date] are deleted, then the new row is
    inserted under a fresh id. *)
Definition reportRow (id : Z) (report : Report) : ReportRow :=
  {| dr_id := id;
     dr_date := date report;
     dr_total_anomalies := totalAnomalies report;
     dr_high_significance_count := highSignificance report;
     dr_cosmic_window_anomalies := cosmicWindowAnomalies report;
     dr_state51_correlations := state51Correlations report;
     dr_battery_anomalies := batteryAnomalies report;
     dr_magnetic_anomalies := magneticAnomalies report;
     dr_frequency_matches := frequencyMatches report;
     dr_report_data := report |}.

Definition insertOrReplace (report : Report) (t : Tables) : Tables :=
  let id := (daily_reports_seq t + 1)%Z in
  {| anomalies := anomalies t; anomalies_seq := anomalies_seq t;
     scans := scans t; scans_seq := scans_seq t;
     daily_reports :=
       List.filter (fun r => negb (String.eqb (dr_date r) (date report)))
              (daily_reports t) ++ [reportRow id report];
     daily_reports_seq := id |}.

Definition saveDailyReport (report : Report) (db : option Tables) : option Tables :=
  match db with
  | None => None
  | Some t => Some (insertOrReplace report t)
  end.

(** [generateDailyReport(date)]: the report returned and the database left
    behind; [None] when a statement rejects. *)
Definition generateDailyReport (d : JsDate) (db : option Tables)
  : option (Report * Tables) :=
  match getAnomalies (startOfDay d) (endOfDay d) db with
  | None => None
  | Some anomalies =>
      match getScans (startOfDay d) (endOfDay d) db with
      | None => None
      | Some scans =>
          let report := buildReport d anomalies scans in
          match saveDailyReport report db with
          | None => None
          | Some t' => Some (report, t')
          end
      end
  end.

(** [getDailyReports(limit)] is not needed below; what is stored for a date
    is read off the table directly. *)
Definition reportsFor (day : string) (t : Tables) : list ReportRow :=
  List.filter (fun r => String.eqb (dr_date r) day) (daily_reports t).

End DatabaseService.

(* ===================================================================== *)
(** ** SensorMonitor *)
(* ===================================================================== *)

Module SensorMonitor.
Import Js.
Local Open Scope float_scope.

(** What one callback reads from the clock: [Date.now()] and
    [new Date().getHours()]. The clock does not advance within a callback. *)
Record Clock := { now : Z; hours : Z }.

(** [getSensorSnapshot()]: a channel that did not report is left out. *)
Record SensorSnapshot := {
  magneticField : option float;
  acceleration : option float;
  rotation : option float;
  pressure : option float;
  gpsAccuracy : option float
}.

(** The baseline object, by the fields the rules read
    ([battery.level], [timestamp], [sensors]). *)
Record Baseline := {
  baselineTimestamp : Z;
  batteryLevel : float;
  sensors : SensorSnapshot
}.

Record CurrentData := {
  currentBatteryLevel : option float;
  currentMagneticField : option float;
  currentAcceleration : option float;
  currentRotation : option float;
  currentPressure : option float
}.

Record Thresholds := {
  thMagneticField : float;
  thBatteryDrain : float;
  thSignalStrength : float;
  thGpsAccuracy : float;
  thTemperature : float;
  thPressure : float
}.

Inductive Channel := Battery | Magnetometer | Accelerometer | Gyroscope | Barometer.

(** An entry of a frequency buffer. *)
Record Sample := { sampleValue : float; sampleTimestamp : Z }.

(** The fields of the [SensorMonitor] object. [frequencyBuffers] does not
    exist until [detectFrequencyPattern] first runs. *)
Record Monitor := {
  isMonitoring : bool;
  subscriptions : list Channel;
  baselineData : option Baseline;
  currentData : CurrentData;
  anomalies : list Anomaly;
  thresholds : Thresholds;
  frequencyBuffers : option (gmap string (list Sample))
}.

(** The monitor together with what it acts on: the database handle of
    [DatabaseService], the alerts raised so far ([triggerAlert]) and the
    listeners attached to the sensor sources. *)
Record World := {
  monitor : Monitor;
  database : option DatabaseService.Tables;
  alerts : list Anomaly;
  listeners : list Channel
}.

Definition constructor : Monitor :=
  {| isMonitoring := false;
     subscriptions := [];
     baselineData := None;
     currentData :=
       {| currentBatteryLevel := None; currentMagneticField := None;
          currentAcceleration := None; currentRotation := None;
          currentPressure := None |};
     anomalies := [];
     thresholds :=
       {| thMagneticField := 10; thBatteryDrain := 0.077; thSignalStrength := 28;
          thGpsAccuracy := 51; thTemperature := 3.4; thPressure := 2 |};
     frequencyBuffers := None |}.

Definition withMonitor (w : World) (m : Monitor) : World :=
  {| monitor := m; database := database w; alerts := alerts w;
     listeners := listeners w |}.

Definition setCurrentData (m : Monitor) (c : CurrentData) : Monitor :=
  {| isMonitoring := isMonitoring m; subscriptions := subscriptions m;
     baselineData := baselineData m; currentData := c;
     anomalies := anomalies m; thresholds := thresholds m;
     frequencyBuffers := frequencyBuffers m |}.

Definition setFrequencyBuffers (m : Monitor) (b : gmap string (list Sample)) : Monitor :=
  {| isMonitoring := isMonitoring m; subscriptions := subscriptions m;
     baselineData := baselineData m; currentData := currentData m;
     anomalies := anomalies m; thresholds := thresholds m;
     frequencyBuffers := Some b |}.

Definition pushAnomaly (m : Monitor) (a : Anomaly) : Monitor :=
  {| isMonitoring := isMonitoring m; subscriptions := subscriptions m;
     baselineData := baselineData m; currentData := currentData m;
     anomalies := anomalies m ++ [a]; thresholds := thresholds m;
     frequencyBuffers := frequencyBuffers m |}.

(** *** Recording *)

Definition isCosmicWindow (c : Clock) : bool :=
  (3 <=? hours c)%Z && (hours c <? 4)%Z.

Definition alertable (d : Detection) : bool :=
  String.eqb (significance d) "high" || String.eqb (significance d) "critical".

(** [anomaly.timestamp = Date.now(); anomaly.cosmicWindow = ...]. *)
Definition stamp (c : Clock) (d : Detection) : Anomaly :=
  {| detail := d; timestamp := now c; cosmicWindow := isCosmicWindow c |}.

(** [recordAnomaly]: stamp, push, save, then alert. When the save rejects,
    the rejection leaves the function at the [await] and nothing after it
    runs. The callers do not await the result; with the store completing
    the saves in the order they were issued, running each call to its end
    before the next gives the same final state. *)
Definition recordAnomaly (c : Clock) (d : Detection) (w : World) : World :=
  let anomaly := stamp c d in
  let m := pushAnomaly (monitor w) anomaly in
  match DatabaseService.saveAnomaly anomaly (database w) with
  | None =>
      {| monitor := m; database := database w; alerts := alerts w;
         listeners := listeners w |}
  | Some t =>
      {| monitor := m; database := Some t;
         alerts := if alertable d then alerts w ++ [anomaly] else alerts w;
         listeners := listeners w |}
  end.

(** *** Battery *)

(** The drain per hour the battery listener computes. *)
Definition drainPerHour (c : Clock) (b : Baseline) (level : float) : float :=
  let drainRate := batteryLevel b - level in
  let timeElapsed := Z2F (now c - baselineTimestamp b) / 3600000 in
  drainRate / timeElapsed.

(** The listener [monitorBattery] registers. *)
Definition batteryLevelListener (c : Clock) (level : float) (w : World) : World :=
  let cd := currentData (monitor w) in
  let w := withMonitor w (setCurrentData (monitor w)
    {| currentBatteryLevel := Some level;
       currentMagneticField := currentMagneticField cd;
       currentAcceleration := currentAcceleration cd;
       currentRotation := currentRotation cd;
       currentPressure := currentPressure cd |}) in
  match baselineData (monitor w) with
  | None => w
  | Some b =>
      let drainPerHour := drainPerHour c b level in
      let w :=
        if lt (abs (drainPerHour - 0.077)) 0.01
        then recordAnomaly c
               {| type := "battery_777"; value := drainPerHour;
                  message := "Battery drain near 7.7% universal constant!";
                  significance := "high"; data := None; targetFreq := None |} w
        else w in
      if lt drainPerHour 0
      then recordAnomaly c
             {| type := "battery_increase"; value := drainPerHour;
                message := "Battery level increasing without charging source!";
                significance := "critical"; data := None; targetFreq := None |} w
      else w
  end.

Definition subscribe (ch : Channel) (w : World) : World :=
  let m := monitor w in
  {| monitor :=
       {| isMonitoring := isMonitoring m; subscriptions := subscriptions m ++ [ch];
          baselineData := baselineData m; currentData := currentData m;
          anomalies := anomalies m; thresholds := thresholds m;
          frequencyBuffers := frequencyBuffers m |};
     database := database w; alerts := alerts w;
     listeners := listeners w ++ [ch] |}.

Definition monitorBattery : World -> World := subscribe Battery.

(** *** Magnetometer *)

Definition magnitude (r : Reading) : float :=
  sqrt (sq (rx r) + sq (ry r) + sq (rz r)).

(** [this.baselineData && this.baselineData.sensors.magneticField]: the
    baseline value when it is there and truthy. *)
Definition truthyField (field : SensorSnapshot -> option float) (m : Monitor)
  : option float :=
  match baselineData m with
  | None => None
  | Some b =>
      match field (sensors b) with
      | Some v => if truthy v then Some v else None
      | None => None
      end
  end.

Definition magnetometerListener (c : Clock) (r : Reading) (w : World) : World :=
  let magnitude := magnitude r in
  let cd := currentData (monitor w) in
  let w := withMonitor w (setCurrentData (monitor w)
    {| currentBatteryLevel := currentBatteryLevel cd;
       currentMagneticField := Some magnitude;
       currentAcceleration := currentAcceleration cd;
       currentRotation := currentRotation cd;
       currentPressure := currentPressure cd |}) in
  match truthyField magneticField (monitor w) with
  | None => w
  | Some baselineField =>
      let change := abs (magnitude - baselineField) in
      let w :=
        if gt change (thMagneticField (thresholds (monitor w)))
        then recordAnomaly c
               {| type := "magnetic_anomaly"; value := change;
                  message := "Magnetic field changed by " ++ toFixed1 change ++ " μT";
                  significance := if gt change 50 then "high" else "medium";
                  data := Some r; targetFreq := None |} w
        else w in
      if lt (abs (magnitude - 51)) 1
      then recordAnomaly c
             {| type := "magnetic_51"; value := magnitude;
                message := "Magnetic field at State 51 resonance (51 μT)!";
                significance := "high"; data := None; targetFreq := None |} w
      else w
  end.

Definition monitorMagnetometer : World -> World := subscribe Magnetometer.

(** *** Frequency patterns *)

(** [findPeaks]: the entries strictly above both neighbours, scanned with a
    window of three. *)
Fixpoint findPeaks (buffer : list Sample) : list Sample :=
  match buffer with
  | prev :: ((cur :: next :: _) as rest) =>
      if gt (sampleValue cur) (sampleValue prev) && gt (sampleValue cur) (sampleValue next)
      then cur :: findPeaks rest
      else findPeaks rest
  | _ => []
  end.

(** The loop of [estimateFrequency]: the gaps between successive peaks,
    added up in the order of the loop. *)
Fixpoint totalPeriodFrom (acc : float) (prev : Sample) (peaks : list Sample) : float :=
  match peaks with
  | [] => acc
  | p :: rest =>
      totalPeriodFrom (acc + Z2F (sampleTimestamp p - sampleTimestamp prev)) p rest
  end.

Definition estimateFrequency (peaks : list Sample) : float :=
  if (length peaks <? 2)%nat then 0
  else
    match peaks with
    | [] => 0
    | first :: rest =>
        let totalPeriod := totalPeriodFrom 0 first rest in
        let avgPeriod := totalPeriod / Z2F (Z.of_nat (length peaks) - 1) in
        1000 / avgPeriod
    end.

(** The array the estimate is made on: the stored buffer with the new
    sample pushed (the pruned copy is stored, the local [buffer] still
    names the unpruned array). *)
Definition pushed (m : Monitor) (sensorType : string) (s : Sample) : list Sample :=
  default [] (default ∅ (frequencyBuffers m) !! sensorType) ++ [s].

Definition detectFrequencyPattern (c : Clock) (value : float) (targetFreq : float)
    (sensorType : string) (w : World) : World :=
  let buffers := default ∅ (frequencyBuffers (monitor w)) in
  let buffer := pushed (monitor w) sensorType
                  {| sampleValue := value; sampleTimestamp := now c |} in
  let cutoff := (now c - 10000)%Z in
  let kept := List.filter (fun item => (cutoff <? sampleTimestamp item)%Z) buffer in
  let w := withMonitor w (setFrequencyBuffers (monitor w) (<[sensorType := kept]> buffers)) in
  if (10 <? length buffer)%nat then
    let peaks := findPeaks buffer in
    let frequency := estimateFrequency peaks in
    if lt (abs (frequency - targetFreq)) 0.1
    then recordAnomaly c
           {| type := "frequency_match_" ++ sensorType; value := frequency;
              message := sensorType ++ " resonating at " ++ numberToString targetFreq ++ " Hz!";
              significance := "high"; data := None; targetFreq := Some targetFreq |} w
    else w
  else w.

Definition accelerometerListener (c : Clock) (r : Reading) (w : World) : World :=
  let magnitude := magnitude r in
  let cd := currentData (monitor w) in
  let w := withMonitor w (setCurrentData (monitor w)
    {| currentBatteryLevel := currentBatteryLevel cd;
       currentMagneticField := currentMagneticField cd;
       currentAcceleration := Some magnitude;
       currentRotation := currentRotation cd;
       currentPressure := currentPressure cd |}) in
  detectFrequencyPattern c magnitude 1.038 "acceleration" w.

Definition gyroscopeListener (c : Clock) (r : Reading) (w : World) : World :=
  let magnitude := magnitude r in
  let cd := currentData (monitor w) in
  let w := withMonitor w (setCurrentData (monitor w)
    {| currentBatteryLevel := currentBatteryLevel cd;
       currentMagneticField := currentMagneticField cd;
       currentAcceleration := currentAcceleration cd;
       currentRotation := Some magnitude;
       currentPressure := currentPressure cd |}) in
  let w := detectFrequencyPattern c magnitude 0.962 "rotation_matter" w in
  detectFrequencyPattern c magnitude 1.038 "rotation_consciousness" w.

Definition monitorAccelerometer : World -> World := subscribe Accelerometer.
Definition monitorGyroscope : World -> World := subscribe Gyroscope.

(** *** Barometer *)

Definition barometerListener (c : Clock) (p : float) (w : World) : World :=
  let cd := currentData (monitor w) in
  let w := withMonitor w (setCurrentData (monitor w)
    {| currentBatteryLevel := currentBatteryLevel cd;
       currentMagneticField := currentMagneticField cd;
       currentAcceleration := currentAcceleration cd;
       currentRotation := currentRotation cd;
       currentPressure := Some p |}) in
  match truthyField pressure (monitor w) with
  | None => w
  | Some baselinePressure =>
      let change := abs (p - baselinePressure) in
      if gt change (thPressure (thresholds (monitor w)))
      then recordAnomaly c
             {| type := "pressure_anomaly"; value := change;
                message := "Pressure changed by " ++ toFixed1 change ++ " hPa";
                significance := "low"; data := None; targetFreq := None |} w
      else w
  end.

Definition monitorBarometer : World -> World := subscribe Barometer.

(** *** Stopping *)

(** [sub.remove()]: the listener behind the subscription is detached. *)
Fixpoint detach (ch : Channel) (ls : list Channel) : list Channel :=
  match ls with
  | [] => []
  | l :: ls' =>
      match ch, l with
      | Battery, Battery | Magnetometer, Magnetometer
      | Accelerometer, Accelerometer | Gyroscope, Gyroscope
      | Barometer, Barometer => ls'
      | _, _ => l :: detach ch ls'
      end
  end.

Definition stopMonitoring (w : World) : World :=
  let m := monitor w in
  {| monitor :=
       {| isMonitoring := false;
          subscriptions := [];
          baselineData := baselineData m; currentData := currentData m;
          anomalies := anomalies m; thresholds := thresholds m;
          frequencyBuffers := frequencyBuffers m |};
     database := database w;
     alerts := alerts w;
     listeners := fold_left (fun ls sub => detach sub ls) (subscriptions m) (listeners w) |}.

(** Every buffer the monitor holds, with its channel key. *)
Definition bufferOf (m : Monitor) (sensorType : string) : list Sample :=
  default [] (default ∅ (frequencyBuffers m) !! sensorType).

End SensorMonitor.

(* ===================================================================== *)
(** ** Vocabulary of the specification *)
(* ===================================================================== *)

Module Spec.
Import Js.
Local Open Scope float_scope.

(** The anomalies a callback added to the monitor's list. *)
Definition produced (before after : SensorMonitor.World) : list Anomaly :=
  skipn (length (SensorMonitor.anomalies (SensorMonitor.monitor before)))
        (SensorMonitor.anomalies (SensorMonitor.monitor after)).

Definition ofType (ty : string) (a : Anomaly) : bool :=
  String.eqb (type (detail a)) ty.

(** The report [generateDailyReport] computes on an open database. *)
Definition reportOf (d : JsDate) (t : DatabaseService.Tables) : DatabaseService.Report :=
  DatabaseService.buildReport d
    (DatabaseService.getAnomaliesFrom t (startOfDay d) (endOfDay d))
    (DatabaseService.getScansFrom t (startOfDay d) (endOfDay d)).

(** The database once further anomalies and scans have been saved or
    removed: the two tables are given anew, the stored reports stay. *)
Definition withData (t : DatabaseService.Tables)
    (anomalies : list DatabaseService.AnomalyRow) (anomaliesSeq : Z)
    (scans : list DatabaseService.ScanRow) (scansSeq : Z) : DatabaseService.Tables :=
  {| DatabaseService.anomalies := anomalies;
     DatabaseService.anomalies_seq := anomaliesSeq;
     DatabaseService.scans := scans;
     DatabaseService.scans_seq := scansSeq;
     DatabaseService.daily_reports := DatabaseService.daily_reports t;
     DatabaseService.daily_reports_seq := DatabaseService.daily_reports_seq t |}.

(** The generation-effect rate in the words of the specification: the
    fraction of the day's anomalies that lie within 60 seconds of a scan
    flagged generation-active. *)
Definition nearActiveScan (scans : list DatabaseService.ScanRow)
    (a : DatabaseService.AnomalyRow) : bool :=
  existsb (fun s => DatabaseService.isActive s && DatabaseService.near a s) scans.

Definition fractionNearActive (anomalies : list DatabaseService.AnomalyRow)
    (scans : list DatabaseService.ScanRow) : float :=
  DatabaseService.num (DatabaseService.count (nearActiveScan scans) anomalies)
    / len anomalies.

(** What [find] attributes an anomaly to: the first scan of the list
    within 60 seconds exists and is an active one. *)
Definition FirstNearIsActive (scans : list DatabaseService.ScanRow)
    (a : DatabaseService.AnomalyRow) : Prop :=
  exists before s after,
    scans = before ++ s :: after
    /\ (forall p, In p before -> DatabaseService.near a p = false)
    /\ DatabaseService.near a s = true
    /\ DatabaseService.isActive s = true.

(** The object literals of the two battery rules. *)
Definition battery777 (drain : float) : Detection :=
  {| type := "battery_777"; value := drain;
     message := "Battery drain near 7.7% universal constant!";
     significance := "high"; data := None; targetFreq := None |}.

Definition batteryIncrease (drain : float) : Detection :=
  {| type := "battery_increase"; value := drain;
     message := "Battery level increasing without charging source!";
     significance := "critical"; data := None; targetFreq := None |}.



(** A binary64 value that is finite and not zero, or infinite, of sign [s]. *)
Definition signedSF (s : bool) (x : spec_float) : Prop :=
  match x with
  | S754_finite s' _ _ | S754_infinity s' => s' = s
  | _ => False
  end.

(** The estimate [detectFrequencyPattern] works with: none unless more
    than 10 points are buffered. *)
Definition estimate (buffer : list SensorMonitor.Sample) : option float :=
  if (10 <? length buffer)%nat
  then Some (SensorMonitor.estimateFrequency (SensorMonitor.findPeaks buffer))
  else None.

End Spec.

(* ===================================================================== *)
(** ** Sample data *)
(* ===================================================================== *)

Module SampleData.
Import Js.
Local Open Scope float_scope.

Definition anomalyAt (id ts : Z) (ty sig : string) (v : float) : DatabaseService.AnomalyRow :=
  {| DatabaseService.ar_id := id;
     DatabaseService.ar_timestamp := ts;
     DatabaseService.ar_type := ty;
     DatabaseService.ar_value := v;
     DatabaseService.ar_significance := sig;
     DatabaseService.ar_cosmic_window := 0;
     DatabaseService.ar_message := "";
     DatabaseService.ar_data := None |}.

Definition scanAt (id ts : Z) (level : float) (active : Z) : DatabaseService.ScanRow :=
  {| DatabaseService.sr_id := id;
     DatabaseService.sr_timestamp := ts;
     DatabaseService.sr_battery_level := level;
     DatabaseService.sr_magnetic_field := 45;
     DatabaseService.sr_acceleration := 1;
     DatabaseService.sr_rotation := 0;
     DatabaseService.sr_pressure := 1013;
     DatabaseService.sr_gps_accuracy := 12;
     DatabaseService.sr_network_type := "WIFI";
     DatabaseService.sr_anomaly_count := 0;
     DatabaseService.sr_cosmic_window := 0;
     DatabaseService.sr_state51_active := active |}.

(** 2 January 1970 in a UTC locale. *)
Definition day : JsDate :=
  {| startOfDay := 86400000; endOfDay := 172799999; isoDate := "1970-01-02" |}.

(** Morning: one anomaly and one scan, no report yet. *)
Definition morning : DatabaseService.Tables :=
  {| DatabaseService.anomalies := [anomalyAt 1 90000000 "magnetic_51" "high" 51];
     DatabaseService.anomalies_seq := 1;
     DatabaseService.scans := [scanAt 1 90000000 0.9 0];
     DatabaseService.scans_seq := 1;
     DatabaseService.daily_reports := [];
     DatabaseService.daily_reports_seq := 0 |}.

(** What has been recorded by the evening. *)
Definition eveningAnomalies : list DatabaseService.AnomalyRow :=
  [anomalyAt 1 90000000 "magnetic_51" "high" 51;
   anomalyAt 2 120000000 "battery_777" "high" 0.077;
   anomalyAt 3 120030000 "pressure_anomaly" "low" 3].

Definition eveningScans : list DatabaseService.ScanRow :=
  [scanAt 1 90000000 0.9 0; scanAt 2 120000000 0.5 1].

End SampleData.

Module SampleWorld.
Import Js SensorMonitor.
Local Open Scope float_scope.

(** A monitor just constructed, with an open and empty database. *)
Definition fresh : World :=
  {| monitor := constructor;
     database := Some DatabaseService.emptyTables;
     alerts := [];
     listeners := [] |}.

(** The same monitor before [initialize] has opened the database. *)
Definition unopened : World :=
  {| monitor := constructor; database := None; alerts := []; listeners := [] |}.

Definition clock : Clock := {| now := 1700000000000; hours := 14 |}.

Definition hourLater : Clock := {| now := 1700003600000; hours := 15 |}.

Definition detection (sig : string) : Detection :=
  {| type := "magnetic_51"; value := 51; message := "";
     significance := sig; data := None; targetFreq := None |}.

Definition baselineAt (ts : Z) (level : float) (field : option float) : Baseline :=
  {| baselineTimestamp := ts;
     batteryLevel := level;
     sensors := {| magneticField := field; acceleration := None; rotation := None;
                   pressure := None; gpsAccuracy := None |} |}.

Definition withBaseline (b : Baseline) (w : World) : World :=
  withMonitor w
    {| isMonitoring := true;
       subscriptions := subscriptions (monitor w);
       baselineData := Some b;
       currentData := currentData (monitor w);
       anomalies := anomalies (monitor w);
       thresholds := thresholds (monitor w);
       frequencyBuffers := frequencyBuffers (monitor w) |}.

(** Monitoring since [clock], battery at 0.077 (resp. 0.09, 0.5), magnetic
    baseline 45. *)
Definition level77 : World := withBaseline (baselineAt 1700000000000 0.077 (Some 45)) fresh.
Definition level90 : World := withBaseline (baselineAt 1700000000000 0.09 (Some 45)) fresh.
Definition level50 : World := withBaseline (baselineAt 1700000000000 0.5 (Some 45)) fresh.


End SampleWorld.

(* ===================================================================== *)
(** ** DatabaseService: scans, stored reports, export *)
(* ===================================================================== *)

Module DatabaseOps.
Import Js DatabaseService.
Local Open Scope float_scope.

(** The object handed to [saveScan], by the properties it reads. A part
    that is missing ([scan.battery], [scan.sensors], [scan.network]) is
    [None]. *)
Record Scan := {
  scanTimestamp : Z;
  scanBatteryLevel : option float;
  scanSensors : option SensorMonitor.SensorSnapshot;
  scanNetworkType : option string;
  scanAnomalyCount : nat;
  scanIsCosmicWindow : bool;
  scanState51Active : bool
}.

(** [x?.field || 0]. *)
Definition fieldOrZero (sensors : option SensorMonitor.SensorSnapshot)
    (field : SensorMonitor.SensorSnapshot -> option float) : float :=
  match sensors with
  | Some s => match field s with Some v => orZero v | None => 0 end
  | None => 0
  end.

Definition scanRow (id : Z) (scan : Scan) : ScanRow :=
  {| sr_id := id;
     sr_timestamp := scanTimestamp scan;
     sr_battery_level :=
       match scanBatteryLevel scan with Some v => orZero v | None => 0 end;
     sr_magnetic_field := fieldOrZero (scanSensors scan) SensorMonitor.magneticField;
     sr_acceleration := fieldOrZero (scanSensors scan) SensorMonitor.acceleration;
     sr_rotation := fieldOrZero (scanSensors scan) SensorMonitor.rotation;
     sr_pressure := fieldOrZero (scanSensors scan) SensorMonitor.pressure;
     sr_gps_accuracy := fieldOrZero (scanSensors scan) SensorMonitor.gpsAccuracy;
     sr_network_type :=
       match scanNetworkType scan with Some s => orString s "" | None => "" end;
     sr_anomaly_count := Z.of_nat (scanAnomalyCount scan);
     sr_cosmic_window := if scanIsCosmicWindow scan then 1%Z else 0%Z;
     sr_state51_active := if scanState51Active scan then 1%Z else 0%Z |}.

Definition saveScan (scan : Scan) (db : option Tables) : option Tables :=
  match db with
  | None => None
  | Some t =>
      let id := (scans_seq t + 1)%Z in
      Some {| anomalies := anomalies t; anomalies_seq := anomalies_seq t;
              scans := scans t ++ [scanRow id scan]; scans_seq := id;
              daily_reports := daily_reports t;
              daily_reports_seq := daily_reports_seq t |}
  end.

(** [getDailyReports(limit)]: [ORDER BY date DESC LIMIT ?], dates compared
    as byte strings; a negative limit is no limit. The [report_data] column
    is read back as the report it was written from. *)
Definition getDailyReports (limit : Z) (db : option Tables) : option (list ReportRow) :=
  match db with
  | None => None
  | Some t =>
      let rows := orderBy (fun x y => String.leb (dr_date y) (dr_date x))
                          (daily_reports t) in
      Some (if (limit <? 0)%Z then rows else firstn (Z.to_nat limit) rows)
  end.

Record Statistics := {
  statTotalAnomalies : nat;
  statTotalScans : nat;
  statTotalReports : nat
}.

Record Export := {
  exportDate : string;
  exportAnomalies : list AnomalyRow;
  exportScans : list ScanRow;
  exportReports : list ReportRow;
  statistics : Statistics
}.

(** [exportData()]; [now] is the reading of [Date.now()] and [isoNow] the
    text of [new Date().toISOString()]. *)
Definition exportData (now : Z) (isoNow : string) (db : option Tables) : option Export :=
  match getAnomalies 0 now db with
  | None => None
  | Some anomalies =>
      match getScans 0 now db with
      | None => None
      | Some scans =>
          match getDailyReports 365 db with
          | None => None
          | Some reports =>
              Some {| exportDate := isoNow;
                      exportAnomalies := anomalies;
                      exportScans := scans;
                      exportReports := reports;
                      statistics :=
                        {| statTotalAnomalies := length anomalies;
                           statTotalScans := length scans;
                           statTotalReports := length reports |} |}
          end
      end
  end.

End DatabaseOps.

(* ===================================================================== *)
(** ** SensorMonitor: session, periodic scan, hourly analysis *)
(* ===================================================================== *)

Module Session.
Import Js SensorMonitor.
Local Open Scope float_scope.

Record Status := {
  statusIsMonitoring : bool;
  statusHasBaseline : bool;
  statusAnomalyCount : nat;
  statusCurrentData : CurrentData;
  statusIsCosmicWindow : bool
}.

Definition getStatus (c : Clock) (w : World) : Status :=
  {| statusIsMonitoring := isMonitoring (monitor w);
     statusHasBaseline := match baselineData (monitor w) with Some _ => true | None => false end;
     statusAnomalyCount := length (anomalies (monitor w));
     statusCurrentData := currentData (monitor w);
     statusIsCosmicWindow := isCosmicWindow c |}.

Definition setMonitoring (m : Monitor) (b : bool) : Monitor :=
  {| isMonitoring := b; subscriptions := subscriptions m;
     baselineData := baselineData m; currentData := currentData m;
     anomalies := anomalies m; thresholds := thresholds m;
     frequencyBuffers := frequencyBuffers m |}.

Definition setBaseline (m : Monitor) (b : Baseline) : Monitor :=
  {| isMonitoring := isMonitoring m; subscriptions := subscriptions m;
     baselineData := Some b; currentData := currentData m;
     anomalies := anomalies m; thresholds := thresholds m;
     frequencyBuffers := frequencyBuffers m |}.

(** [establishBaseline]: [level] and [snapshot] are what [getBatteryData]
    and [getSensorSnapshot] return. The baseline is assigned first and saved
    next; the second component tells whether the save resolved. The
    [baselines] table is written here and read nowhere in the program; it is
    not part of [DatabaseService.Tables]. *)
Definition establishBaseline (c : Clock) (level : float) (snapshot : SensorSnapshot)
    (w : World) : World * bool :=
  let baseline := {| baselineTimestamp := now c; batteryLevel := level;
                     sensors := snapshot |} in
  (withMonitor w (setBaseline (monitor w) baseline),
   match database w with Some _ => true | None => false end).

(** [startMonitoring], up to the point where the polling loops and the
    periodic scan are started (their ticks are events of their own). A
    rejected baseline save leaves the function before any listener is
    attached. *)
Definition startMonitoring (c : Clock) (level : float) (snapshot : SensorSnapshot)
    (w : World) : World :=
  if isMonitoring (monitor w) then w
  else
    let w := withMonitor w (setMonitoring (monitor w) true) in
    let '(w, saved) :=
      match baselineData (monitor w) with
      | None => establishBaseline c level snapshot w
      | Some _ => (w, true)
      end in
    if saved
    then monitorBarometer (monitorGyroscope (monitorAccelerometer
           (monitorMagnetometer (monitorBattery w))))
    else w.

(** [analyzeHourlyPatterns]; [None] when [analyzePatterns] rejects. *)
Definition analyzeHourlyPatterns (c : Clock) (w : World) : option World :=
  match DatabaseService.analyzePatterns (now c) (database w) with
  | None => None
  | Some patterns =>
      let w :=
        if DatabaseService.anomalySpike patterns
        then recordAnomaly c
               {| type := "pattern_spike";
                  value := DatabaseService.num (DatabaseService.anomalyCount patterns);
                  message := "Unusual spike in anomalies detected";
                  significance := "high"; data := None; targetFreq := None |} w
        else w in
      Some (if gt (DatabaseService.cosmicCorrelation patterns) 0.7
            then recordAnomaly c
                   {| type := "cosmic_correlation";
                      value := DatabaseService.cosmicCorrelation patterns;
                      message := "High correlation with cosmic window!";
                      significance := "critical"; data := None; targetFreq := None |} w
            else w)
  end.

(** One run of the [scan] closure of [startPeriodicScan]. [level],
    [networkType] and [snapshot] are what the three getters return,
    [minutes] is [new Date().getMinutes()]. The second component tells
    whether the run reached [setTimeout(scan, 60000)]. *)
Definition scan (c : Clock) (minutes : Z) (level : float) (networkType : string)
    (snapshot : SensorSnapshot) (w : World) : World * bool :=
  if negb (isMonitoring (monitor w)) then (w, false)
  else
    let scanData :=
      {| DatabaseOps.scanTimestamp := now c;
         DatabaseOps.scanBatteryLevel := Some level;
         DatabaseOps.scanSensors := Some snapshot;
         DatabaseOps.scanNetworkType := Some networkType;
         DatabaseOps.scanAnomalyCount := length (anomalies (monitor w));
         DatabaseOps.scanIsCosmicWindow := isCosmicWindow c;
         DatabaseOps.scanState51Active := false |} in
    match DatabaseOps.saveScan scanData (database w) with
    | None => (w, false)
    | Some t =>
        let w := {| monitor := monitor w; database := Some t; alerts := alerts w;
                    listeners := listeners w |} in
        if (minutes =? 0)%Z
        then match analyzeHourlyPatterns c w with
             | None => (w, false)
             | Some w' => (w', true)
             end
        else (w, true)
    end.

(** A sample delivered by a sensor source. *)
Inductive Event :=
| BatteryLevel (level : float)
| MagnetometerData (r : Reading)
| AccelerometerData (r : Reading)
| GyroscopeData (r : Reading)
| BarometerData (pressure : float).

Definition channelOf (e : Event) : Channel :=
  match e with
  | BatteryLevel _ => Battery
  | MagnetometerData _ => Magnetometer
  | AccelerometerData _ => Accelerometer
  | GyroscopeData _ => Gyroscope
  | BarometerData _ => Barometer
  end.

Definition sameChannel (a b : Channel) : bool :=
  match a, b with
  | Battery, Battery | Magnetometer, Magnetometer | Accelerometer, Accelerometer
  | Gyroscope, Gyroscope | Barometer, Barometer => true
  | _, _ => false
  end.

(** The listener a sample goes to. *)
Definition handle (c : Clock) (e : Event) (w : World) : World :=
  match e with
  | BatteryLevel level => batteryLevelListener c level w
  | MagnetometerData r => magnetometerListener c r w
  | AccelerometerData r => accelerometerListener c r w
  | GyroscopeData r => gyroscopeListener c r w
  | BarometerData p => barometerListener c p w
  end.

(** A source calls the listeners attached to it, one call per attached
    listener, and nobody else. *)
Definition deliver (c : Clock) (e : Event) (w : World) : World :=
  fold_left (fun w l => if sameChannel l (channelOf e) then handle c e w else w)
            (listeners w) w.

Definition run (events : list (Clock * Event)) (w : World) : World :=
  fold_left (fun w ce => deliver (fst ce) (snd ce) w) events w.

End Session.

(* ===================================================================== *)
(** ** BackgroundService *)
(* ===================================================================== *)

Module BackgroundService.
Import Js.
Local Open Scope float_scope.

Definition background (c : SensorMonitor.Clock) (ty : string) (v : float)
    (sig : string) (cosmic : bool) (msg : string) : Anomaly :=
  {| detail := {| type := ty; value := v; message := msg; significance := sig;
                  data := None; targetFreq := None |};
     timestamp := SensorMonitor.now c;
     cosmicWindow := cosmic |}.

(** [detectBackgroundAnomalies]; [random] is the value [Math.random()]
    returns when it is called. *)
Definition detectBackgroundAnomalies (c : SensorMonitor.Clock) (random : float)
    (isCosmicWindow : bool) : list Anomaly :=
  let lastDigits := Z.rem (SensorMonitor.now c) 1000 in
  (if isCosmicWindow && lt random 0.1
   then [background c "cosmic_background_detection" random "medium" true
           "Background cosmic window pattern detected"]
   else [])
  ++ (if (SensorMonitor.hours c =? 3)%Z
      then [background c "cosmic_peak_hour" 3 "high" true
              "Background monitoring during peak cosmic hour"]
      else [])
  ++ (if (lastDigits =? 51)%Z || (lastDigits =? 510)%Z || (lastDigits =? 77)%Z
      then [background c "timestamp_pattern" (Z2F lastDigits) "low" isCosmicWindow
              ("Background timestamp pattern: " ++ numberToString (Z2F lastDigits))]
      else []).

Record TaskResult := { resultAnomalies : nat; resultCosmic : bool }.

(** [executeBackgroundTask]: the scan is saved first, then each anomaly, by
    [saveAnomaly] directly; a rejected save is rethrown ([None]). At
    00:00 and 00:01 the report of [yesterday] is generated; an error there
    is caught and logged. *)
Definition executeBackgroundTask (c : SensorMonitor.Clock) (minutes : Z)
    (random : float) (yesterday : JsDate) (db : option DatabaseService.Tables)
  : option (TaskResult * DatabaseService.Tables) :=
  let isCosmicWindow := SensorMonitor.isCosmicWindow c in
  let anomalies := detectBackgroundAnomalies c random isCosmicWindow in
  let scanData :=
    {| DatabaseOps.scanTimestamp := SensorMonitor.now c;
       DatabaseOps.scanBatteryLevel := Some 0.5;
       DatabaseOps.scanSensors := None;
       DatabaseOps.scanNetworkType := Some "unknown"%string;
       DatabaseOps.scanAnomalyCount := length anomalies;
       DatabaseOps.scanIsCosmicWindow := isCosmicWindow;
       DatabaseOps.scanState51Active := false |} in
  let db := DatabaseOps.saveScan scanData db in
  let db := fold_left (fun db a => DatabaseService.saveAnomaly a db) anomalies db in
  match db with
  | None => None
  | Some t =>
      let t :=
        if (SensorMonitor.hours c =? 0)%Z && (minutes <? 2)%Z
        then match DatabaseService.generateDailyReport yesterday (Some t) with
             | Some (_, t') => t'
             | None => t
             end
        else t in
      Some ({| resultAnomalies := length anomalies; resultCosmic := isCosmicWindow |}, t)
  end.

End BackgroundService.

(* ===================================================================== *)
(** ** Invariants of the stored tables *)
(* ===================================================================== *)

Module Invariant.
Import DatabaseService.

(** The ids of a table are positive, pairwise distinct, and none exceeds
    the counter the next id is drawn from. *)
Definition FreshIds {A} (id : A -> Z) (rows : list A) (seq : Z) : Prop :=
  List.NoDup (map id rows) /\ (0 <= seq)%Z /\ Forall (fun r => (0 < id r <= seq)%Z) rows.

Definition WellFormed (t : Tables) : Prop :=
  FreshIds ar_id (anomalies t) (anomalies_seq t)
  /\ FreshIds sr_id (scans t) (scans_seq t)
  /\ FreshIds dr_id (daily_reports t) (daily_reports_seq t)
  /\ List.NoDup (map dr_date (daily_reports t)).

(** Every stored scan carries [state51_active = 0]. *)
Definition NoActiveScan (t : Tables) : Prop :=
  Forall (fun s => isActive s = false) (scans t).


(** [saveAnomaly] applied to each of a list of anomalies in turn. *)
Definition saveAll (l : list Anomaly) (db : option Tables) : option Tables :=
  fold_left (fun db a => saveAnomaly a db) l db.

(** A step of the monitor that recorded the anomalies [l] and nothing
    else: they are appended to the list in memory and saved in that order;
    on an open database the high and critical ones are alerted, on an
    unopened one nothing is; the session itself is untouched. *)
Definition Recorded (l : list Anomaly) (w w' : SensorMonitor.World) : Prop :=
  SensorMonitor.anomalies (SensorMonitor.monitor w')
    = SensorMonitor.anomalies (SensorMonitor.monitor w) ++ l
  /\ SensorMonitor.database w' = saveAll l (SensorMonitor.database w)
  /\ SensorMonitor.alerts w'
     = SensorMonitor.alerts w
       ++ match SensorMonitor.database w with
          | Some _ => List.filter (fun a => SensorMonitor.alertable (detail a)) l
          | None => []
          end
  /\ SensorMonitor.listeners w' = SensorMonitor.listeners w
  /\ SensorMonitor.isMonitoring (SensorMonitor.monitor w')
     = SensorMonitor.isMonitoring (SensorMonitor.monitor w)
  /\ SensorMonitor.subscriptions (SensorMonitor.monitor w')
     = SensorMonitor.subscriptions (SensorMonitor.monitor w)
  /\ SensorMonitor.baselineData (SensorMonitor.monitor w')
     = SensorMonitor.baselineData (SensorMonitor.monitor w)
  /\ SensorMonitor.thresholds (SensorMonitor.monitor w')
     = SensorMonitor.thresholds (SensorMonitor.monitor w).

Definition Recording (w w' : SensorMonitor.World) : Prop :=
  exists l, Recorded l w w'.

(** The anomalies table mirrors the list in memory (same timestamps,
    types and cosmic flags, in the same order), and the alerts raised are
    the high and critical anomalies of that list. *)
Definition Mirrors (w : SensorMonitor.World) : Prop :=
  exists t,
    SensorMonitor.database w = Some t
    /\ map (fun r => (ar_timestamp r, ar_type r, ar_cosmic_window r)) (anomalies t)
       = map (fun a => (timestamp a, type (detail a),
                        if cosmicWindow a then 1%Z else 0%Z))
             (SensorMonitor.anomalies (SensorMonitor.monitor w))
    /\ SensorMonitor.alerts w
       = List.filter (fun a => SensorMonitor.alertable (detail a))
                     (SensorMonitor.anomalies (SensorMonitor.monitor w)).

(** What can happen to a monitor between its creation and now: the
    program starts or stops it, a source delivers a sample to its attached
    listeners, or the periodic scan runs. *)
Inductive Action :=
| Start (c : SensorMonitor.Clock) (level : float) (snapshot : SensorMonitor.SensorSnapshot)
| Stop
| Deliver (c : SensorMonitor.Clock) (e : Session.Event)
| ScanTick (c : SensorMonitor.Clock) (minutes : Z) (level : float)
    (networkType : string) (snapshot : SensorMonitor.SensorSnapshot).

Definition act (a : Action) (w : SensorMonitor.World) : SensorMonitor.World :=
  match a with
  | Start c level snapshot => Session.startMonitoring c level snapshot w
  | Stop => SensorMonitor.stopMonitoring w
  | Deliver c e => Session.deliver c e w
  | ScanTick c minutes level networkType snapshot =>
      fst (Session.scan c minutes level networkType snapshot w)
  end.

Definition session (actions : list Action) (w : SensorMonitor.World)
  : SensorMonitor.World :=
  fold_left (fun w a => act a w) actions w.

(** No scan stored in the database, if it is open, is flagged active. *)
Definition NoActiveScanIn (db : option Tables) : Prop :=
  match db with
  | Some t => NoActiveScan t
  | None => True
  end.

End Invariant.

Module Peak.
Import Js SensorMonitor.

(** The test [findPeaks] applies to a point and its two neighbours. *)
Definition isPeak (prev cur next : Sample) : bool :=
  gt (sampleValue cur) (sampleValue prev) && gt (sampleValue cur) (sampleValue next).

End Peak.

(* ===================================================================== *)
(** ** Classes of doubles *)
(* ===================================================================== *)

Module Double.
Import Js.
Local Open Scope float_scope.

(** A binary64 value of sign [+]: [+0], a positive finite number or
    [+Infinity]. *)
Definition nonnegSF (x : spec_float) : Prop :=
  match x with
  | S754_zero false | S754_finite false _ _ | S754_infinity false => True
  | _ => False
  end.

(** A number that is finite and not zero. *)
Definition finiteNonzero (x : float) : bool :=
  truthy x && PrimFloat.ltb (abs x) infinity.

End Double.

(* ===================================================================== *)
(** ** Sample sessions *)
(* ===================================================================== *)

Module SampleSession.
Import Js SensorMonitor.
Local Open Scope float_scope.

(** What [getSensorSnapshot] returns on a device at rest. *)
Definition snapshot : SensorSnapshot :=
  {| magneticField := Some 45; acceleration := Some 9.81; rotation := Some 0;
     pressure := Some 1013.25; gpsAccuracy := Some 12 |}.

Definition start : Invariant.Action := Invariant.Start SampleWorld.clock 0.5 snapshot.

Definition tick : Invariant.Action :=
  Invariant.ScanTick SampleWorld.clock 30 0.5 "WIFI" snapshot.

(** A monitor with a baseline and a battery listener, on a database that
    was never opened. *)
Definition unsaved : World :=
  monitorBattery (SampleWorld.withBaseline
    (SampleWorld.baselineAt 1700000000000 0.5 None) SampleWorld.unopened).

(** A monitor holding twelve buffered acceleration samples of a device at
    rest, 100 ms apart. *)
Definition atRest : World :=
  withMonitor SampleWorld.fresh
    (setFrequencyBuffers (monitor SampleWorld.fresh)
       (<["acceleration"%string :=
            map (fun k => {| sampleValue := 9.81;
                             sampleTimestamp := 1700000000000 - 100 * Z.of_nat k |})
                (rev (seq 1 12))]> ∅)).

End SampleSession.

(* ===================================================================== *)
(** ** Facts about doubles *)
(* ===================================================================== *)

(** The sign of a difference and the result of a division by zero, from
    the specification of binary64 arithmetic. *)

Section DoubleFacts.
Local Open Scope Z_scope.

Lemma digits2_pos_bounds (m : positive) :
  2 ^ (Z.pos (digits2_pos m) - 1) <= Z.pos m < 2 ^ Z.pos (digits2_pos m).
Proof.
  induction m as [m IH|m IH|]; cbn [digits2_pos].
  - rewrite Pos2Z.inj_succ.
    replace (Z.succ (Z.pos (digits2_pos m)) - 1) with (Z.succ (Z.pos (digits2_pos m) - 1)) by lia.
    rewrite !Z.pow_succ_r by lia. lia.
  - rewrite Pos2Z.inj_succ.
    replace (Z.succ (Z.pos (digits2_pos m)) - 1) with (Z.succ (Z.pos (digits2_pos m) - 1)) by lia.
    rewrite !Z.pow_succ_r by lia. lia.
  - cbn. lia.
Qed.

Lemma iter_xO_value (m d : positive) :
  Z.pos (Pos.iter xO m d) = Z.pos m * 2 ^ Z.pos d.
Proof.
  induction d as [|d IH] using Pos.peano_ind.
  - cbn. lia.
  - rewrite Pos.iter_succ, Pos2Z.inj_succ, Z.pow_succ_r by lia.
    rewrite Pos2Z.inj_xO, IH. lia.
Qed.

Lemma shl_align_value (m : positive) (e e' : Z) :
  e' <= e -> Z.pos (fst (shl_align m e e')) = Z.pos m * 2 ^ (e - e').
Proof.
  intros H. unfold shl_align.
  destruct (e' - e) as [|d|d] eqn:Hd; cbn [fst].
  - replace (e - e') with 0 by lia. lia.
  - lia.
  - rewrite iter_xO_value. f_equal. f_equal. lia.
Qed.

Lemma shl_align_exponent (m : positive) (e e' : Z) :
  snd (shl_align m e e') = Z.min e e'.
Proof.
  unfold shl_align. destruct (e' - e) as [|d|d] eqn:Hd; cbn [snd]; lia.
Qed.

Lemma shl_align_digits (m : positive) (e e' : Z) :
  Z.pos (digits2_pos (fst (shl_align m e e'))) + snd (shl_align m e e')
  = Z.pos (digits2_pos m) + e.
Proof.
  unfold shl_align. destruct (e' - e) as [|d|d] eqn:Hd; cbn [fst snd]; try lia.
  assert (forall k, Z.pos (digits2_pos (Pos.iter xO m k)) = Z.pos (digits2_pos m) + Z.pos k) as Hk.
  { intros k. induction k as [|k IH] using Pos.peano_ind.
    - cbn. lia.
    - rewrite Pos.iter_succ. cbn [digits2_pos]. rewrite Pos2Z.inj_succ, IH. lia. }
  rewrite Hk. lia.
Qed.

Lemma shr_1_value mrs :
  0 <= shr_m mrs -> shr_m (shr_1 mrs) = shr_m mrs / 2.
Proof.
  destruct mrs as [m r s]. cbn [shr_m]. intros Hm.
  destruct m as [|p|p]; [reflexivity| |lia].
  destruct p as [p|p|]; cbn [shr_1 shr_m].
  - rewrite Pos2Z.inj_xI. apply Z.div_unique with (r := 1); lia.
  - rewrite Pos2Z.inj_xO. apply Z.div_unique with (r := 0); lia.
  - reflexivity.
Qed.

Lemma iter_pos_shr_1_value (n : positive) : forall mrs,
  0 <= shr_m mrs -> shr_m (SpecFloat.iter_pos shr_1 n mrs) = shr_m mrs / 2 ^ Z.pos n.
Proof.
  induction n as [n IH|n IH|]; intros mrs Hm; cbn [SpecFloat.iter_pos].
  - assert (H1 : 0 <= shr_m (shr_1 mrs)).
    { rewrite shr_1_value by exact Hm. apply Z.div_pos; lia. }
    assert (H2 : 0 <= shr_m (SpecFloat.iter_pos shr_1 n (shr_1 mrs))).
    { rewrite IH by exact H1. apply Z.div_pos; [lia|]. apply Z.pow_pos_nonneg; lia. }
    rewrite IH by exact H2. rewrite IH by exact H1. rewrite shr_1_value by exact Hm.
    rewrite !Z.div_div by (try apply Z.pow_pos_nonneg; lia).
    f_equal. rewrite <- Z.pow_add_r, <- Z.pow_succ_r by lia. f_equal. lia.
  - assert (H2 : 0 <= shr_m (SpecFloat.iter_pos shr_1 n mrs)).
    { rewrite IH by exact Hm. apply Z.div_pos; [lia|]. apply Z.pow_pos_nonneg; lia. }
    rewrite IH by exact H2. rewrite IH by exact Hm.
    rewrite !Z.div_div by (try apply Z.pow_pos_nonneg; lia).
    f_equal. rewrite <- Z.pow_add_r by lia. f_equal. lia.
  - rewrite shr_1_value by exact Hm. reflexivity.
Qed.


Lemma fexp64 (k : Z) : fexp prec emax k = Z.max (k - 53) (-1074).
Proof. reflexivity. Qed.

(** Shifting a positive mantissa whose exponent is not below [emin] to its
    canonical exponent leaves a positive mantissa. *)
Lemma shr_fexp_positive (p : positive) (e : Z) (l : location) :
  (-1074) <= e ->
  0 < shr_m (fst (shr_fexp prec emax (Z.pos p) e l))
  /\ (-1074) <= snd (shr_fexp prec emax (Z.pos p) e l).
Proof.
  intros He. unfold shr_fexp. rewrite fexp64. cbn [Zdigits2].
  pose proof (digits2_pos_bounds p) as [Hlo _].
  set (d := Z.pos (digits2_pos p)) in *.
  assert (Hrec : shr_m (shr_record_of_loc (Z.pos p) l) = Z.pos p).
  { destruct l as [|[| |]]; reflexivity. }
  unfold shr. destruct (Z.max (d + e - 53) (-1074) - e) as [|n|n] eqn:Hn; cbn [fst snd].
  - rewrite Hrec. lia.
  - rewrite iter_pos_shr_1_value by (rewrite Hrec; lia). rewrite Hrec.
    assert (Hnd : Z.pos n <= d - 1) by lia.
    split; [|lia].
    apply Z.div_str_pos. split; [apply Z.pow_pos_nonneg; lia|].
    apply Z.le_trans with (2 ^ (d - 1)); [|exact Hlo].
    apply Z.pow_le_mono_r; lia.
  - rewrite Hrec. lia.
Qed.

Lemma round_nearest_even_positive (m : Z) (l : location) :
  0 < m -> 0 < round_nearest_even m l.
Proof.
  intros Hm. destruct l as [|[| |]]; cbn [round_nearest_even]; try lia.
  destruct (Z.even m); lia.
Qed.

Lemma binary_round_aux_signed (s : bool) (p : positive) (e : Z) (l : location) :
  (-1074) <= e -> Spec.signedSF s (binary_round_aux prec emax s (Z.pos p) e l).
Proof.
  intros He. unfold binary_round_aux.
  destruct (shr_fexp_positive p e l He) as [Hm1 He1].
  destruct (shr_fexp prec emax (Z.pos p) e l) as [mrs1 e1]. cbn [fst snd] in Hm1, He1.
  pose proof (round_nearest_even_positive (shr_m mrs1) (loc_of_shr_record mrs1) Hm1) as Hr.
  destruct (round_nearest_even (shr_m mrs1) (loc_of_shr_record mrs1)) as [|q|q]; [lia| |lia].
  destruct (shr_fexp_positive q e1 loc_Exact He1) as [Hm2 _].
  destruct (shr_fexp prec emax (Z.pos q) e1 loc_Exact) as [mrs2 e2]. cbn [fst snd] in Hm2.
  destruct (shr_m mrs2) as [|m2|m2]; [lia| |lia].
  destruct (e2 <=? emax - prec); reflexivity.
Qed.

Lemma binary_normalize_negative (p : positive) (e : Z) :
  (-1074) <= e -> Spec.signedSF true (binary_normalize prec emax (Z.neg p) e false).
Proof.
  intros He. cbn [binary_normalize]. unfold binary_round.
  pose proof (shl_align_exponent p e (fexp prec emax (Z.pos (digits2_pos p) + e))) as Hs.
  destruct (shl_align p e (fexp prec emax (Z.pos (digits2_pos p) + e))) as [mz ez].
  cbn [snd] in Hs. apply binary_round_aux_signed. rewrite Hs, fexp64. lia.
Qed.


Lemma bounded_canonical (m : positive) (e : Z) :
  bounded prec emax m e = true ->
  e = Z.max (Z.pos (digits2_pos m) + e - 53) (-1074).
Proof.
  unfold bounded, canonical_mantissa. rewrite fexp64.
  intros H. apply andb_prop in H as [H _]. apply Z.eqb_eq in H. lia.
Qed.

(** Of two canonical mantissas, the one with the smaller exponent is the
    smaller number. *)
Lemma canonical_exponent_lt (mx my : positive) (ex ey : Z) :
  bounded prec emax mx ex = true -> bounded prec emax my ey = true ->
  ex < ey ->
  Z.pos mx * 2 ^ (ex - Z.min ex ey) < Z.pos my * 2 ^ (ey - Z.min ex ey).
Proof.
  intros Hx Hy Hlt.
  apply bounded_canonical in Hx, Hy.
  pose proof (digits2_pos_bounds mx) as [_ Hmx].
  pose proof (digits2_pos_bounds my) as [Hmy _].
  rewrite Z.min_l by lia. rewrite Z.sub_diag, Z.pow_0_r, Z.mul_1_r.
  assert (Hdy : Z.pos (digits2_pos my) = 53) by lia.
  assert (Hdx : Z.pos (digits2_pos mx) <= 53) by lia.
  rewrite Hdy in Hmy.
  assert (H53 : 2 ^ Z.pos (digits2_pos mx) <= 2 ^ 53) by (apply Z.pow_le_mono_r; lia).
  assert (Hk : 2 ^ 1 <= 2 ^ (ey - ex)) by (apply Z.pow_le_mono_r; lia).
  assert (Hprod : 2 ^ (53 - 1) * 2 ^ 1 <= Z.pos my * 2 ^ (ey - ex)).
  { apply Z.mul_le_mono_nonneg; lia. }
  change (2 ^ (53 - 1) * 2 ^ 1) with (2 ^ 53) in Hprod. lia.
Qed.

Lemma compare_cont_Eq_lt (m1 m2 : positive) :
  Pos.compare_cont Eq m1 m2 = Lt -> Z.pos m1 < Z.pos m2.
Proof. intros H. apply Pos2Z.pos_lt_pos. exact H. Qed.

Lemma compare_cont_Eq_gt (m1 m2 : positive) :
  Pos.compare_cont Eq m1 m2 = Gt -> Z.pos m2 < Z.pos m1.
Proof. intros H. apply Pos2Z.pos_lt_pos, Pos.gt_lt. exact H. Qed.

(** The aligned difference of two finite doubles [x < y] is negative. *)
Lemma aligned_difference_negative (sx sy : bool) (mx my : positive) (ex ey : Z) :
  bounded prec emax mx ex = true -> bounded prec emax my ey = true ->
  SFltb (S754_finite sx mx ex) (S754_finite sy my ey) = true ->
  cond_Zopp sx (Z.pos (fst (shl_align mx ex (Z.min ex ey))))
  - cond_Zopp sy (Z.pos (fst (shl_align my ey (Z.min ex ey)))) < 0.
Proof.
  intros Hx Hy Hlt.
  rewrite !shl_align_value by lia.
  unfold SFltb, SFcompare in Hlt.
  destruct sx, sy; cbn [cond_Zopp].
  - destruct (Z.compare_spec ex ey) as [He|He|He]; try discriminate.
    + subst ey. rewrite Z.min_id, Z.sub_diag, Z.pow_0_r.
      destruct (Pos.compare_cont Eq mx my) eqn:Hc; try discriminate.
      apply compare_cont_Eq_gt in Hc. lia.
    + pose proof (canonical_exponent_lt my mx ey ex Hy Hx He) as H.
      rewrite (Z.min_comm ey ex) in H. lia.
  - assert (0 < Z.pos mx * 2 ^ (ex - Z.min ex ey)) by (apply Z.mul_pos_pos; [lia|apply Z.pow_pos_nonneg; lia]).
    assert (0 < Z.pos my * 2 ^ (ey - Z.min ex ey)) by (apply Z.mul_pos_pos; [lia|apply Z.pow_pos_nonneg; lia]).
    lia.
  - discriminate.
  - destruct (Z.compare_spec ex ey) as [He|He|He]; try discriminate.
    + subst ey. rewrite Z.min_id, Z.sub_diag, Z.pow_0_r.
      destruct (Pos.compare_cont Eq mx my) eqn:Hc; try discriminate.
      apply compare_cont_Eq_lt in Hc. lia.
    + pose proof (canonical_exponent_lt mx my ex ey Hx Hy He) as H. lia.
Qed.

(** [x - y] is negative (finite or infinite, never zero or NaN) when
    [x < y]. *)
Lemma SFsub_negative (X Y : spec_float) :
  SpecFloat.valid_binary prec emax X = true -> SpecFloat.valid_binary prec emax Y = true ->
  SFltb X Y = true ->
  Spec.signedSF true (SFsub prec emax X Y).
Proof.
  intros HX HY Hlt.
  destruct X as [sx|sx| |sx mx ex], Y as [sy|sy| |sy my ey];
    try discriminate Hlt;
    try (destruct sx; try discriminate Hlt; try destruct sy; try discriminate Hlt; reflexivity);
    try (destruct sy; try discriminate Hlt; reflexivity).
  cbn [SpecFloat.valid_binary] in HX, HY.
  pose proof (aligned_difference_negative sx sy mx my ex ey HX HY Hlt) as Hneg.
  cbn [SFsub]. cbv zeta.
  destruct (cond_Zopp sx (Z.pos (fst (shl_align mx ex (Z.min ex ey))))
            - cond_Zopp sy (Z.pos (fst (shl_align my ey (Z.min ex ey))))) as [|p|p] eqn:HD;
    try lia.
  change (IntDef.Z.min ex ey) with (Z.min ex ey).
  apply binary_normalize_negative.
  apply bounded_canonical in HX, HY. lia.
Qed.

Local Open Scope float_scope.

Lemma float_of_spec (x : float) (s : spec_float) : Prim2SF x = s -> x = SF2Prim s.
Proof. intros <-. symmetry. apply SF2Prim_Prim2SF. Qed.

(** Dividing by [+0] gives an infinity or NaN. *)
Lemma div_zero_cases (x : float) :
  x / 0 = infinity \/ x / 0 = neg_infinity \/ x / 0 = nan.
Proof.
  assert (H : Prim2SF (x / 0) = SFdiv prec emax (Prim2SF x) (S754_zero false)).
  { rewrite div_spec. reflexivity. }
  destruct (Prim2SF x) as [s|s| |s m e]; cbn in H; apply float_of_spec in H;
    rewrite H; try destruct s; cbn; auto.
Qed.

(** A level above the baseline level makes the drain negative, and a
    negative drain over [+0] hours is [-Infinity]. *)
Lemma sub_div_zero_neg_infinity (x y : float) :
  PrimFloat.ltb x y = true -> (x - y) / 0 = neg_infinity.
Proof.
  intros Hlt. rewrite ltb_spec in Hlt.
  pose proof (SFsub_negative _ _ (Prim2SF_valid x) (Prim2SF_valid y) Hlt) as Hneg.
  assert (H : Prim2SF ((x - y) / 0)
              = SFdiv prec emax (SFsub prec emax (Prim2SF x) (Prim2SF y)) (S754_zero false)).
  { rewrite div_spec, sub_spec. reflexivity. }
  destruct (SFsub prec emax (Prim2SF x) (Prim2SF y)) as [s|s| |s m e];
    cbn in Hneg; try contradiction; subst s; cbn in H;
    apply float_of_spec in H; rewrite H; reflexivity.
Qed.

End DoubleFacts.

(* ===================================================================== *)
(** ** Properties of DatabaseService *)
(* ===================================================================== *)

Section DatabaseFacts.
Import Js DatabaseService Spec.
Local Open Scope float_scope.

(** *** Pattern analysis on an empty day *)

Lemma analyze_no_daily recent :
  cosmicCorrelation (analyze recent []) = nan.
Proof. reflexivity. Qed.

(** On a day with anomalies the loop counts the cosmic-window rows and the
    others, and the correlation is the share of the former. *)
Lemma cosmic_counters daily c :
  cosmicTrue (fold_left countAnomaly daily c)
  = (cosmicTrue c + count (fun a => (ar_cosmic_window a =? 1)%Z) daily)%nat
  /\ cosmicFalse (fold_left countAnomaly daily c)
    = (cosmicFalse c + count (fun a => negb (ar_cosmic_window a =? 1)%Z) daily)%nat.
Proof.
  revert c. induction daily as [|a daily IH]; intros c; cbn [fold_left].
  - unfold count. cbn. lia.
  - destruct (IH (countAnomaly c a)) as [Ht Hf]. rewrite Ht, Hf.
    unfold count. cbn [countAnomaly cosmicTrue cosmicFalse List.filter].
    destruct (ar_cosmic_window a =? 1)%Z; cbn [negb length]; lia.
Qed.

Lemma cosmicCorrelation_share recent daily :
  cosmicCorrelation (analyze recent daily)
  = num (count (fun a => (ar_cosmic_window a =? 1)%Z) daily)
    / (num (count (fun a => (ar_cosmic_window a =? 1)%Z) daily)
       + num (count (fun a => negb (ar_cosmic_window a =? 1)%Z) daily)).
Proof.
  unfold analyze. cbn [cosmicCorrelation].
  destruct (cosmic_counters daily initialCounters) as [-> ->]. reflexivity.
Qed.

(** C1 (the code departs from the claim): whenever the 24-hour query returns
    no anomaly, [analyzePatterns] divides zero by zero and the
    [cosmicCorrelation] it returns is NaN, not 0. *)
Theorem analyzePatterns_empty_day_is_nan (now : Z) (t : Tables) :
  getAnomaliesFrom t (now - 86400000) now = [] ->
  option_map cosmicCorrelation (analyzePatterns now (Some t)) = Some nan.
Proof.
  intros Hday. unfold analyzePatterns, getAnomalies.
  rewrite Hday. cbn [option_map]. now rewrite analyze_no_daily.
Qed.

Lemma analyzePatterns_empty_day_is_nan_witness :
  getAnomaliesFrom emptyTables (1700000000000 - 86400000) 1700000000000 = []
  /\ option_map cosmicCorrelation (analyzePatterns 1700000000000 (Some emptyTables))
     = Some nan.
Proof.
  split; [reflexivity|].
  apply (analyzePatterns_empty_day_is_nan 1700000000000 emptyTables). reflexivity.
Defined.

(** *** Trend labels *)

Lemma calculateTrend_short values :
  (length values < 2)%nat -> calculateTrend values = "stable"%string.
Proof.
  intros H. unfold calculateTrend.
  apply Nat.ltb_lt in H. now rewrite H.
Qed.

Lemma calculateTrend_long values :
  (2 <= length values)%nat ->
  calculateTrend values =
    if lt (abs (percentChange values)) 1 then "stable"%string
    else if gt (percentChange values) 0
         then ("increasing " ++ toFixed1 (percentChange values) ++ "%")%string
         else ("decreasing " ++ toFixed1 (abs (percentChange values)) ++ "%")%string.
Proof.
  intros H. unfold calculateTrend.
  destruct (Nat.ltb_spec (length values) 2) as [Hlt|_]; [lia|reflexivity].
Qed.

(** C8 (counterexample): a series of one value is labelled "stable"
    although its percent change is NaN, whose absolute value is not less
    than 1. *)
Lemma calculateTrend_single_value_counterexample :
  calculateTrend [10] = "stable"%string
  /\ lt (abs (percentChange [10])) 1 = false
  /\ PrimFloat.is_nan (percentChange [10]) = true.
Proof. repeat split; reflexivity. Qed.

(** C8 (amended): [calculateTrend [10;10;10;20;20;20]] is an "increasing"
    label carrying the percent change 100, [calculateTrend] of six tens is
    "stable"; a series of at least two values is "stable" exactly when the
    absolute percent change of the second-half mean relative to the
    first-half mean is less than 1, and a series of fewer than two values is
    always "stable". *)
Theorem calculateTrend_labels :
  calculateTrend [10; 10; 10; 20; 20; 20] = "increasing 100.0%"%string
  /\ percentChange [10; 10; 10; 20; 20; 20] = 100
  /\ calculateTrend [10; 10; 10; 10; 10; 10] = "stable"%string
  /\ (forall values, (2 <= length values)%nat ->
        (calculateTrend values = "stable"%string
         <-> lt (abs (percentChange values)) 1 = true))
  /\ (forall values, (length values < 2)%nat ->
        calculateTrend values = "stable"%string).
Proof.
  split; [reflexivity|]. split; [reflexivity|]. split; [reflexivity|].
  split; [|exact calculateTrend_short].
  intros values Hlen. rewrite (calculateTrend_long values Hlen).
  destruct (lt (abs (percentChange values)) 1).
  - tauto.
  - split; [|discriminate].
    destruct (gt (percentChange values) 0); cbn; discriminate.
Qed.

Lemma calculateTrend_labels_witness :
  (calculateTrend [1; 2; 3] = "stable"%string
   <-> lt (abs (percentChange [1; 2; 3])) 1 = true)
  /\ calculateTrend [7] = "stable"%string.
Proof.
  destruct calculateTrend_labels as (_ & _ & _ & Hlong & Hshort).
  split.
  - apply (Hlong [1; 2; 3]). simpl. lia.
  - apply (Hshort [7]). simpl. lia.
Defined.

(** *** Generation effect *)

Lemma find_first_split {A} (p : A -> bool) (l : list A) (x : A) :
  find p l = Some x ->
  exists before after,
    l = before ++ x :: after /\ (forall y, In y before -> p y = false) /\ p x = true.
Proof.
  induction l as [|y l IH]; cbn; [discriminate|].
  destruct (p y) eqn:Hy.
  - intros [= ->]. exists [], l. repeat split; [|exact Hy]. intros ? [].
  - intros Hf. destruct (IH Hf) as (before & after & -> & Hb & Hx).
    exists (y :: before), after. repeat split; [|exact Hx].
    intros z [<-|Hz]; [exact Hy|now apply Hb].
Qed.

Lemma find_skip_prefix {A} (p : A -> bool) (before : list A) (x : A) (after : list A) :
  (forall y, In y before -> p y = false) -> p x = true ->
  find p (before ++ x :: after) = Some x.
Proof.
  intros Hb Hx. induction before as [|y before IH]; cbn.
  - now rewrite Hx.
  - rewrite (Hb y (or_introl eq_refl)). apply IH.
    intros z Hz. apply Hb. now right.
Qed.

Lemma attributedToActive_first_near scans a :
  attributedToActive scans a = true <-> FirstNearIsActive scans a.
Proof.
  unfold attributedToActive, FirstNearIsActive. split.
  - destruct (find (near a) scans) as [s|] eqn:Hf; [|discriminate].
    intros Hact. destruct (find_first_split _ _ _ Hf) as (before & after & -> & Hb & Hs).
    now exists before, s, after.
  - intros (before & s & after & -> & Hb & Hs & Hact).
    now rewrite (find_skip_prefix _ _ _ _ Hb Hs).
Qed.

Lemma attributedToActive_nearActiveScan scans a :
  attributedToActive scans a = true -> nearActiveScan scans a = true.
Proof.
  intros H. apply attributedToActive_first_near in H.
  destruct H as (before & s & after & -> & _ & Hs & Hact).
  unfold nearActiveScan. apply existsb_exists. exists s. split.
  - apply in_or_app. right. now left.
  - now rewrite Hs, Hact.
Qed.

(** C3 (counterexample): one active scan with two anomalies close to it
    gives the rate 2, where the fraction of anomalies near an active scan is
    1; and an anomaly whose first scan within 60 seconds is inactive is not
    counted although an active scan is within 60 seconds too. *)
Lemma anomalyRate_is_not_a_fraction_counterexample :
  let near1 := SampleData.anomalyAt 1 90001000 "magnetic_51" "high" 51 in
  let near2 := SampleData.anomalyAt 2 90002000 "gps_51" "medium" 51 in
  let active := SampleData.scanAt 1 90000000 0.9 1 in
  let between := SampleData.anomalyAt 3 90030000 "magnetic_51" "high" 51 in
  let inactive := SampleData.scanAt 1 90000000 0.9 0 in
  let activeLater := SampleData.scanAt 2 90050000 0.9 1 in
  anomalyRate (state51Effect (buildReport SampleData.day [near1; near2] [active])) = 2
  /\ fractionNearActive [near1; near2] [active] = 1
  /\ anomalyRate (state51Effect (buildReport SampleData.day [between] [inactive; activeLater])) = 0
  /\ fractionNearActive [between] [inactive; activeLater] = 1.
Proof. cbv zeta. repeat split; reflexivity. Qed.

(** C3 (amended): in the daily report the generation-effect [anomalyRate]
    is the number of the day's anomalies whose first scan within 60 seconds
    is flagged generation-active, divided by the number of generation-active
    scans (0 when there is none); the [correlation] label is "positive"
    exactly when that rate is greater than 0.1, otherwise "none". *)
Theorem generation_effect_rate (d : JsDate) (anomalies : list AnomalyRow)
    (scans : list ScanRow) :
  let effect := state51Effect (buildReport d anomalies scans) in
  let activeScans := List.filter isActive scans in
  (forall a, attributedToActive scans a = true <-> FirstNearIsActive scans a)
  /\ anomalyRate effect =
       (if (0 <? length activeScans)%nat
        then num (count (attributedToActive scans) anomalies) / len activeScans
        else 0)
  /\ activePeriods effect = length activeScans
  /\ (correlation effect = "positive"%string <-> gt (anomalyRate effect) 0.1 = true)
  /\ (correlation effect = "none"%string <-> gt (anomalyRate effect) 0.1 = false).
Proof.
  cbv zeta. split; [apply attributedToActive_first_near|].
  split; [reflexivity|]. split; [reflexivity|].
  cbn [state51Effect buildReport anomalyRate correlation].
  destruct (gt (state51AnomalyRate anomalies scans) 0.1);
    split; split; intros H; try reflexivity; discriminate.
Qed.

(** *** Upsert of the daily report *)

Lemma generateDailyReport_open d t :
  generateDailyReport d (Some t) = Some (reportOf d t, insertOrReplace (reportOf d t) t).
Proof. reflexivity. Qed.

Lemma date_reportOf d t : date (reportOf d t) = isoDate d.
Proof. reflexivity. Qed.

Lemma filter_none {A} (p : A -> bool) (l : list A) :
  List.filter p (List.filter (fun x => negb (p x)) l) = [].
Proof.
  induction l as [|x l IH]; cbn; [reflexivity|].
  destruct (p x) eqn:Hx; cbn; [exact IH|]. rewrite Hx. exact IH.
Qed.

Lemma reportsFor_insertOrReplace d report t :
  date report = isoDate d ->
  reportsFor (isoDate d) (insertOrReplace report t)
  = [reportRow (daily_reports_seq t + 1) report].
Proof.
  intros Hd. unfold reportsFor, insertOrReplace. cbn [daily_reports].
  rewrite List.filter_app, Hd.
  rewrite (filter_none (fun r => String.eqb (dr_date r) (isoDate d))).
  cbn. now rewrite Hd, String.eqb_refl.
Qed.

Lemma reportsFor_other_day d report t day :
  date report = isoDate d -> day <> isoDate d ->
  reportsFor day (insertOrReplace report t) = reportsFor day t.
Proof.
  intros Hd Hne. unfold reportsFor, insertOrReplace. cbn [daily_reports].
  rewrite List.filter_app. cbn. rewrite Hd.
  destruct (String.eqb_spec (isoDate d) day) as [He|_]; [congruence|].
  rewrite app_nil_r. induction (daily_reports t) as [|r l IH]; cbn; [reflexivity|].
  destruct (String.eqb_spec (dr_date r) (isoDate d)) as [He|He]; cbn.
  - destruct (String.eqb_spec (dr_date r) day) as [He'|_]; [congruence|exact IH].
  - destruct (String.eqb (dr_date r) day); [now rewrite IH|exact IH].
Qed.

Lemma reportOf_withData d t anomalies aseq scans sseq :
  reportOf d (withData t anomalies aseq scans sseq)
  = buildReport d
      (orderBy (fun x y => (ar_timestamp y <=? ar_timestamp x)%Z)
         (List.filter (fun r => inRange (startOfDay d) (endOfDay d) (ar_timestamp r))
                      anomalies))
      (orderBy (fun x y => (sr_timestamp x <=? sr_timestamp y)%Z)
         (List.filter (fun r => inRange (startOfDay d) (endOfDay d) (sr_timestamp r))
                      scans)).
Proof. reflexivity. Qed.

(** C6: generating the daily report for a date, and generating it again
    for the same date once the anomalies and scans have changed, leaves
    exactly one stored report for that date; its columns and its report
    data are those computed from the anomalies and scans present at the
    second generation, and nothing of the first report is kept. *)
Theorem daily_report_upsert (d : JsDate) (first : Tables)
    (anomalies2 : list AnomalyRow) (aseq : Z) (scans2 : list ScanRow) (sseq : Z) :
  let afterFirst := insertOrReplace (reportOf d first) first in
  let second := withData afterFirst anomalies2 aseq scans2 sseq in
  let report2 := reportOf d second in
  let afterSecond := insertOrReplace report2 second in
  generateDailyReport d (Some first) = Some (reportOf d first, afterFirst)
  /\ generateDailyReport d (Some second) = Some (report2, afterSecond)
  /\ reportsFor (isoDate d) afterFirst
     = [reportRow (daily_reports_seq first + 1) (reportOf d first)]
  /\ reportsFor (isoDate d) afterSecond
     = [reportRow (daily_reports_seq first + 2) report2]
  /\ report2
     = buildReport d
         (orderBy (fun x y => (ar_timestamp y <=? ar_timestamp x)%Z)
            (List.filter (fun r => inRange (startOfDay d) (endOfDay d) (ar_timestamp r))
                         anomalies2))
         (orderBy (fun x y => (sr_timestamp x <=? sr_timestamp y)%Z)
            (List.filter (fun r => inRange (startOfDay d) (endOfDay d) (sr_timestamp r))
                         scans2)).
Proof.
  cbv zeta. split; [reflexivity|]. split; [reflexivity|].
  split; [apply reportsFor_insertOrReplace, date_reportOf|].
  split; [|apply reportOf_withData].
  rewrite (reportsFor_insertOrReplace d); [|apply date_reportOf].
  cbn [withData insertOrReplace daily_reports_seq].
  now replace (daily_reports_seq first + 1 + 1)%Z with (daily_reports_seq first + 2)%Z by lia.
Qed.

(** The morning report of the sample day counts one anomaly; regenerated
    in the evening, the one stored report counts three. *)
Lemma daily_report_upsert_witness :
  let afterFirst := insertOrReplace (reportOf SampleData.day SampleData.morning) SampleData.morning in
  let second := withData afterFirst SampleData.eveningAnomalies 3 SampleData.eveningScans 2 in
  map dr_total_anomalies (reportsFor "1970-01-02" afterFirst) = [1%nat]
  /\ reportsFor "1970-01-02" (insertOrReplace (reportOf SampleData.day second) second)
     = [reportRow 2 (reportOf SampleData.day second)]
  /\ totalAnomalies (reportOf SampleData.day second) = 3%nat.
Proof.
  cbv zeta. split; [reflexivity|]. split; [|reflexivity].
  exact (proj1 (proj2 (proj2 (proj2
    (daily_report_upsert SampleData.day SampleData.morning
       SampleData.eveningAnomalies 3 SampleData.eveningScans 2))))).
Defined.

End DatabaseFacts.

(* ===================================================================== *)
(** ** Properties of SensorMonitor *)
(* ===================================================================== *)

Section MonitorFacts.
Import Js SensorMonitor Spec.
Local Open Scope float_scope.

Lemma produced_app w w' l :
  anomalies (monitor w') = anomalies (monitor w) ++ l -> produced w w' = l.
Proof.
  intros H. unfold produced. rewrite H, skipn_app, skipn_all, Nat.sub_diag.
  reflexivity.
Qed.

Lemma produced_none w w' :
  anomalies (monitor w') = anomalies (monitor w) -> produced w w' = [].
Proof. intros H. apply produced_app. now rewrite app_nil_r. Qed.

Lemma anomalies_recordAnomaly c d w :
  anomalies (monitor (recordAnomaly c d w)) = anomalies (monitor w) ++ [stamp c d].
Proof. unfold recordAnomaly. now destruct (DatabaseService.saveAnomaly _ _). Qed.

(** *** Stopping *)

(** C5 (counterexample): a monitor that holds one buffered acceleration
    sample still holds it after [stopMonitoring]. *)
Lemma stopMonitoring_keeps_buffer_counterexample :
  let s := {| sampleValue := 9.81; sampleTimestamp := 1700000000000 |} in
  let w := {| monitor := setFrequencyBuffers constructor {["acceleration"%string := [s]]};
              database := None; alerts := []; listeners := [] |} in
  bufferOf (monitor (stopMonitoring w)) "acceleration" = [s].
Proof. reflexivity. Qed.

Lemma recordAnomaly_after_stop c d w :
  recordAnomaly c d (stopMonitoring w) = stopMonitoring (recordAnomaly c d w).
Proof.
  unfold recordAnomaly, stopMonitoring. cbn [database monitor].
  now destruct (DatabaseService.saveAnomaly (stamp c d) (database w)).
Qed.

(** A sample that arrives after a stop is handled on the buffer that was
    there before the stop. *)
Lemma detectFrequencyPattern_after_stop c value target sensorType w :
  detectFrequencyPattern c value target sensorType (stopMonitoring w)
  = stopMonitoring (detectFrequencyPattern c value target sensorType w).
Proof.
  unfold detectFrequencyPattern. cbv zeta.
  change (pushed (monitor (stopMonitoring w))) with (pushed (monitor w)).
  destruct (10 <? length _)%nat; [|reflexivity].
  destruct (lt _ 0.1); [|reflexivity].
  now rewrite <- recordAnomaly_after_stop.
Qed.

(** C5 (amended): [stopMonitoring] leaves every per-channel frequency
    buffer exactly as it was (nothing is cleared; the buffers outlive the
    monitoring session); it only marks the monitor as stopped and drops its
    subscriptions, and the next sample of a channel is handled on the
    buffer left from before the stop. *)
Theorem stopMonitoring_leaves_buffers (w : World) :
  frequencyBuffers (monitor (stopMonitoring w)) = frequencyBuffers (monitor w)
  /\ (forall sensorType,
        bufferOf (monitor (stopMonitoring w)) sensorType = bufferOf (monitor w) sensorType)
  /\ isMonitoring (monitor (stopMonitoring w)) = false
  /\ subscriptions (monitor (stopMonitoring w)) = []
  /\ (forall c value target sensorType,
        detectFrequencyPattern c value target sensorType (stopMonitoring w)
        = stopMonitoring (detectFrequencyPattern c value target sensorType w)).
Proof.
  split; [reflexivity|]. split; [reflexivity|]. split; [reflexivity|].
  split; [reflexivity|]. intros c value target sensorType.
  apply detectFrequencyPattern_after_stop.
Qed.

(** *** Recording and alerting *)




(** When the save rejects, the anomaly stays in the monitor's list but no
    alert is raised. *)
Lemma recordAnomaly_rejected c d w :
  database w = None ->
  alerts (recordAnomaly c d w) = alerts w
  /\ anomalies (monitor (recordAnomaly c d w)) = anomalies (monitor w) ++ [stamp c d].
Proof. intros H. unfold recordAnomaly. rewrite H. split; reflexivity. Qed.

Example rejected_save_raises_no_alert :
  alerts (recordAnomaly SampleWorld.clock (SampleWorld.detection "critical")
            SampleWorld.unopened) = []
  /\ length (anomalies (monitor
        (recordAnomaly SampleWorld.clock (SampleWorld.detection "critical")
           SampleWorld.unopened))) = 1%nat.
Proof. split; reflexivity. Qed.

(** *** Frequency buffers *)

Lemma detectFrequencyPattern_estimate c value target sensorType w :
  let buffer := pushed (monitor w) sensorType
                  {| sampleValue := value; sampleTimestamp := now c |} in
  let kept := List.filter (fun item => (now c - 10000 <? sampleTimestamp item)%Z) buffer in
  let w1 := withMonitor w (setFrequencyBuffers (monitor w)
              (<[sensorType := kept]> (default ∅ (frequencyBuffers (monitor w))))) in
  detectFrequencyPattern c value target sensorType w =
  match estimate buffer with
  | Some frequency =>
      if lt (abs (frequency - target)) 0.1
      then recordAnomaly c
             {| type := "frequency_match_" ++ sensorType; value := frequency;
                message := sensorType ++ " resonating at " ++ numberToString target ++ " Hz!";
                significance := "high"; data := None; targetFreq := Some target |} w1
      else w1
  | None => w1
  end.
Proof.
  cbv zeta. unfold detectFrequencyPattern, estimate.
  now destruct (10 <? length _)%nat.
Qed.



(** Four peaks one second apart read as 1 Hz. *)
Example estimateFrequency_one_hertz :
  estimateFrequency
    [ {| sampleValue := 2; sampleTimestamp := 0 |};
      {| sampleValue := 2; sampleTimestamp := 1000 |};
      {| sampleValue := 2; sampleTimestamp := 2000 |};
      {| sampleValue := 2; sampleTimestamp := 3000 |} ] = 1.
Proof. reflexivity. Qed.

(** *** Battery rules *)

(** What the battery listener records, by the two rule conditions. *)
Lemma batteryLevelListener_produced c level w b :
  baselineData (monitor w) = Some b ->
  produced w (batteryLevelListener c level w)
  = (if lt (abs (drainPerHour c b level - 0.077)) 0.01
     then [stamp c (battery777 (drainPerHour c b level))] else [])
    ++ (if lt (drainPerHour c b level) 0
        then [stamp c (batteryIncrease (drainPerHour c b level))] else []).
Proof.
  intros Hb. apply produced_app.
  unfold batteryLevelListener. cbv zeta.
  cbn [monitor withMonitor baselineData setCurrentData]. rewrite Hb.
  fold (battery777 (drainPerHour c b level)).
  fold (batteryIncrease (drainPerHour c b level)).
  destruct (lt (abs (drainPerHour c b level - 0.077)) 0.01);
    destruct (lt (drainPerHour c b level) 0);
    rewrite ?anomalies_recordAnomaly; cbn [monitor withMonitor anomalies setCurrentData];
    rewrite <- ?app_assoc, ?app_nil_r; reflexivity.
Qed.

(** C9: with a baseline in place, a battery sample whose drain per hour
    comes out as exactly 0.077 records a "battery_777" anomaly of
    significance "high" (and nothing else); a drain per hour of 0.09 records
    no "battery_777" anomaly. *)
Theorem battery_777_rule (c : Clock) (b : Baseline) (level : float) (w : World) :
  baselineData (monitor w) = Some b ->
  let w' := batteryLevelListener c level w in
  (drainPerHour c b level = 0.077 ->
     produced w w' = [stamp c (battery777 0.077)]
     /\ significance (battery777 0.077) = "high"%string)
  /\ (drainPerHour c b level = 0.09 ->
     List.filter (ofType "battery_777") (produced w w') = []).
Proof.
  intros Hb. cbv zeta. rewrite (batteryLevelListener_produced c level w b Hb).
  split; intros ->.
  - split; reflexivity.
  - reflexivity.
Qed.

(** One hour after a baseline at level 0.077 (resp. 0.09) the level reads 0. *)
Lemma battery_777_rule_witness :
  drainPerHour SampleWorld.hourLater (SampleWorld.baselineAt 1700000000000 0.077 (Some 45)) 0
  = 0.077
  /\ produced SampleWorld.level77 (batteryLevelListener SampleWorld.hourLater 0 SampleWorld.level77)
     = [stamp SampleWorld.hourLater (battery777 0.077)]
  /\ drainPerHour SampleWorld.hourLater (SampleWorld.baselineAt 1700000000000 0.09 (Some 45)) 0
     = 0.09
  /\ List.filter (ofType "battery_777")
       (produced SampleWorld.level90 (batteryLevelListener SampleWorld.hourLater 0 SampleWorld.level90))
     = [].
Proof.
  split; [reflexivity|]. split; [|split; [reflexivity|]].
  - exact (proj1 (proj1 (battery_777_rule SampleWorld.hourLater
             (SampleWorld.baselineAt 1700000000000 0.077 (Some 45)) 0
             SampleWorld.level77 eq_refl) eq_refl)).
  - exact (proj2 (battery_777_rule SampleWorld.hourLater
             (SampleWorld.baselineAt 1700000000000 0.09 (Some 45)) 0
             SampleWorld.level90 eq_refl) eq_refl).
Defined.

(** The drain per hour at the very instant of the baseline: the elapsed
    time is [+0] hours. *)
Lemma drainPerHour_zero_elapsed c b level :
  now c = baselineTimestamp b ->
  drainPerHour c b level = (batteryLevel b - level) / 0.
Proof.
  intros H. unfold drainPerHour. rewrite H, Z.sub_diag. reflexivity.
Qed.

(** C10: a battery sample that arrives with zero elapsed time since the
    baseline is divided by zero hours: the drain per hour is an infinity or
    NaN and the rules are evaluated on it all the same; when the level is
    strictly above the baseline level the drain per hour is [-Infinity],
    which is below 0, and a "battery_increase" anomaly of significance
    "critical" is recorded. *)
Theorem battery_zero_elapsed (c : Clock) (b : Baseline) (level : float) (w : World) :
  baselineData (monitor w) = Some b ->
  now c = baselineTimestamp b ->
  let drain := drainPerHour c b level in
  let w' := batteryLevelListener c level w in
  (drain = infinity \/ drain = neg_infinity \/ drain = nan)
  /\ produced w w'
     = (if lt (abs (drain - 0.077)) 0.01 then [stamp c (battery777 drain)] else [])
       ++ (if lt drain 0 then [stamp c (batteryIncrease drain)] else [])
  /\ (PrimFloat.ltb (batteryLevel b) level = true ->
      drain = neg_infinity
      /\ lt drain 0 = true
      /\ produced w w' = [stamp c (batteryIncrease neg_infinity)]
      /\ significance (batteryIncrease neg_infinity) = "critical"%string).
Proof.
  intros Hb Hnow. cbv zeta.
  rewrite (batteryLevelListener_produced c level w b Hb).
  rewrite (drainPerHour_zero_elapsed c b level Hnow).
  split; [apply div_zero_cases|]. split; [reflexivity|].
  intros Hlt. rewrite (sub_div_zero_neg_infinity _ _ Hlt).
  repeat split.
Qed.

(** At the instant of a baseline taken at level 0.5, the level reads 0.8. *)
Lemma battery_zero_elapsed_witness :
  now SampleWorld.clock = baselineTimestamp (SampleWorld.baselineAt 1700000000000 0.5 (Some 45))
  /\ PrimFloat.ltb 0.5 0.8 = true
  /\ drainPerHour SampleWorld.clock (SampleWorld.baselineAt 1700000000000 0.5 (Some 45)) 0.8
     = neg_infinity
  /\ produced SampleWorld.level50 (batteryLevelListener SampleWorld.clock 0.8 SampleWorld.level50)
     = [stamp SampleWorld.clock (batteryIncrease neg_infinity)].
Proof.
  split; [reflexivity|]. split; [reflexivity|].
  pose proof (proj2 (proj2 (battery_zero_elapsed SampleWorld.clock
    (SampleWorld.baselineAt 1700000000000 0.5 (Some 45)) 0.8 SampleWorld.level50
    eq_refl eq_refl)) eq_refl) as (H1 & _ & H3 & _).
  split; [exact H1|exact H3].
Defined.

(** *** Magnetometer rules *)






End MonitorFacts.

(* ===================================================================== *)
(** ** More facts about doubles *)
(* ===================================================================== *)

From Stdlib Require Uint63.

Section MoreDoubleFacts.
Import Js Double.
Local Open Scope Z_scope.

Lemma binary_normalize_positive (p : positive) (e : Z) :
  -1074 <= e -> Spec.signedSF false (binary_normalize prec emax (Z.pos p) e false).
Proof.
  intros He. cbn [binary_normalize]. unfold binary_round.
  pose proof (shl_align_exponent p e (fexp prec emax (Z.pos (digits2_pos p) + e))) as Hs.
  destruct (shl_align p e (fexp prec emax (Z.pos (digits2_pos p) + e))) as [mz ez].
  cbn [snd] in Hs. apply binary_round_aux_signed. rewrite Hs, fexp64. lia.
Qed.

(** An integer below 2^63 converts as the primitive conversion does. *)
Lemma Prim2SF_Z2F (z : Z) :
  0 <= z < 2 ^ 63 -> Prim2SF (Z2F z) = binary_normalize prec emax z 0 false.
Proof.
  intros Hz. unfold Z2F.
  assert (H : binary_normalize prec emax z 0 false
              = Prim2SF (of_uint63 (Uint63.of_Z z))).
  { rewrite of_uint63_spec, Uint63.of_Z_spec. rewrite Z.mod_small; [reflexivity|].
    change Uint63.wB with (2 ^ 63). lia. }
  rewrite H, SF2Prim_Prim2SF. reflexivity.
Qed.

(** A positive count, as a number, is positive. *)
Lemma positive_count (k : nat) :
  (0 < k)%nat -> Z.of_nat k < 2 ^ 63 ->
  Spec.signedSF false (Prim2SF (DatabaseService.num k)).
Proof.
  intros Hk Hb. unfold DatabaseService.num. rewrite Prim2SF_Z2F by lia.
  destruct (Z.of_nat k) as [|p|p] eqn:Hp; [lia| |lia].
  apply binary_normalize_positive. lia.
Qed.

Lemma shr_fexp_nonneg (m e : Z) (l : location) :
  0 <= m -> 0 <= shr_m (fst (shr_fexp prec emax m e l)).
Proof.
  intros Hm. unfold shr_fexp.
  assert (Hrec : shr_m (shr_record_of_loc m l) = m).
  { destruct l as [|[| |]]; reflexivity. }
  unfold shr. destruct (fexp prec emax (Zdigits2 m + e) - e) as [|n|n]; cbn [fst].
  - now rewrite Hrec.
  - rewrite iter_pos_shr_1_value by (rewrite Hrec; lia). rewrite Hrec.
    apply Z.div_pos; [lia|]. apply Z.pow_pos_nonneg; lia.
  - now rewrite Hrec.
Qed.

Lemma round_nearest_even_nonneg (m : Z) (l : location) :
  0 <= m -> 0 <= round_nearest_even m l.
Proof.
  intros Hm. destruct l as [|[| |]]; cbn [round_nearest_even]; try lia.
  destruct (Z.even m); lia.
Qed.

(** Rounding a non-negative mantissa with sign [+] gives a value of sign
    [+]. *)
Lemma binary_round_aux_nonneg (m e : Z) (l : location) :
  0 <= m -> nonnegSF (binary_round_aux prec emax false m e l).
Proof.
  intros Hm. unfold binary_round_aux.
  pose proof (shr_fexp_nonneg m e l Hm) as H1.
  destruct (shr_fexp prec emax m e l) as [mrs1 e1]. cbn [fst] in H1.
  pose proof (round_nearest_even_nonneg _ (loc_of_shr_record mrs1) H1) as Hr.
  pose proof (shr_fexp_nonneg _ e1 loc_Exact Hr) as H2.
  destruct (shr_fexp prec emax (round_nearest_even (shr_m mrs1) (loc_of_shr_record mrs1))
              e1 loc_Exact) as [mrs2 e2]. cbn [fst] in H2.
  destruct (shr_m mrs2) as [|m2|m2]; [exact I| |lia].
  destruct (e2 <=? emax - prec); exact I.
Qed.

Lemma SFdiv_core_nonneg (m1 m2 : positive) (e1 e2 : Z) :
  0 <= fst (fst (SFdiv_core_binary prec emax (Z.pos m1) e1 (Z.pos m2) e2)).
Proof.
  unfold SFdiv_core_binary.
  set (s := e1 - e2 - _).
  assert (Hm : 0 <= match s with Z.pos _ => Z.shiftl (Z.pos m1) s | 0 => Z.pos m1
                    | Z.neg _ => 0 end).
  { destruct s; try lia. apply Z.shiftl_nonneg. lia. }
  pose proof (Z.div_pos _ (Z.pos m2) Hm ltac:(lia)) as Hq.
  unfold Z.div in Hq.
  destruct (Z.div_eucl _ (Z.pos m2)) as [q r]. exact Hq.
Qed.

Lemma SFdiv_nonneg (X : spec_float) (my : positive) (ey : Z) :
  nonnegSF X -> nonnegSF (SFdiv prec emax X (S754_finite false my ey)).
Proof.
  intros HX.
  destruct X as [[]|[]| |[] mx ex]; try contradiction; try exact I.
  cbn [SFdiv xorb].
  pose proof (SFdiv_core_nonneg mx my ex ey) as Hq.
  destruct (SFdiv_core_binary prec emax (Z.pos mx) ex (Z.pos my) ey) as [[q e] l].
  now apply binary_round_aux_nonneg.
Qed.

Lemma SFmul_nonneg (X : spec_float) (my : positive) (ey : Z) :
  nonnegSF X -> nonnegSF (SFmul prec emax X (S754_finite false my ey)).
Proof.
  intros HX.
  destruct X as [[]|[]| |[] mx ex]; try contradiction; try exact I.
  cbn [SFmul xorb]. apply binary_round_aux_nonneg. lia.
Qed.

Local Open Scope float_scope.

Lemma nonneg_not_below_zero (x : float) :
  nonnegSF (Prim2SF x) -> PrimFloat.ltb x 0 = false.
Proof.
  intros H. rewrite FloatAxioms.ltb_spec. change (Prim2SF 0) with (S754_zero false).
  destruct (Prim2SF x) as [[]|[]| |[] m e]; try contradiction; reflexivity.
Qed.

Lemma signed_nonneg (X : spec_float) : Spec.signedSF false X -> nonnegSF X.
Proof. destruct X as [|s| |s m e]; cbn; try tauto; intros ->; exact I. Qed.

(** Zero over a positive number is zero. *)
Lemma zero_div_positive (y : float) :
  Spec.signedSF false (Prim2SF y) -> 0 / y = 0.
Proof.
  intros Hy.
  assert (H : Prim2SF (0 / y) = SFdiv prec emax (S754_zero false) (Prim2SF y)).
  { rewrite div_spec. reflexivity. }
  destruct (Prim2SF y) as [s|s| |s m e]; cbn in Hy; try contradiction; subst s;
    cbn in H; apply float_of_spec in H; exact H.
Qed.


Lemma finiteNonzero_spec (x : float) :
  finiteNonzero x = true -> exists s m e, Prim2SF x = S754_finite s m e.
Proof.
  unfold finiteNonzero, truthy, PrimFloat.is_nan. intros H.
  apply andb_prop in H as [Ht Hi]. apply Bool.negb_true_iff in Ht.
  apply orb_false_elim in Ht as [Hz Hn]. apply Bool.negb_false_iff in Hn.
  rewrite FloatAxioms.eqb_spec in Hz, Hn. rewrite FloatAxioms.ltb_spec, abs_spec in Hi.
  change (Prim2SF 0) with (S754_zero false) in Hz.
  change (Prim2SF infinity) with (S754_infinity false) in Hi.
  destruct (Prim2SF x) as [s|s| |s m e];
    [destruct s; cbn in *; discriminate|destruct s; cbn in *; discriminate
    |cbn in *; discriminate|eauto].
Qed.

(** For a finite [x] other than zero, [(x - x) / x * 100] is a zero. *)
Lemma no_change_percent (x : float) :
  finiteNonzero x = true ->
  PrimFloat.ltb (abs ((x - x) / x * 100)) 1 = true.
Proof.
  intros Hx. destruct (finiteNonzero_spec x Hx) as (s & m & e & HX).
  rewrite FloatAxioms.ltb_spec, abs_spec, mul_spec, div_spec, sub_spec, HX.
  unfold SF64mul, SF64div, SF64sub. cbn [SFsub].
  change (IntDef.Z.min e e) with (Z.min e e).
  change (Z.sub ?a ?a) with (a - a)%Z.
  rewrite Z.sub_diag. cbn [binary_normalize SFdiv].
  destruct s; reflexivity.
Qed.

End MoreDoubleFacts.

(* ===================================================================== *)
(** ** Further properties of DatabaseService *)
(* ===================================================================== *)

From Stdlib Require Import Sorted Permutation.

(** *** [ORDER BY] *)

Section OrderByFacts.
Import DatabaseService.
Context {A : Type} (before : A -> A -> bool).
Hypothesis before_total : forall x y, before x y = false -> before y x = true.
Hypothesis before_trans :
  forall x y z, before x y = true -> before y z = true -> before x z = true.

Lemma insertBy_Permutation (x : A) (l : list A) :
  Permutation (insertBy before x l) (x :: l).
Proof.
  induction l as [|y l IH]; cbn; [reflexivity|].
  destruct (before x y); [reflexivity|].
  rewrite IH. apply perm_swap.
Qed.

Lemma orderBy_Permutation (l : list A) : Permutation (orderBy before l) l.
Proof.
  induction l as [|x l IH]; cbn; [reflexivity|].
  rewrite insertBy_Permutation. now constructor.
Qed.

Lemma insertBy_sorted (x : A) (l : list A) :
  StronglySorted (fun a b => before a b = true) l ->
  StronglySorted (fun a b => before a b = true) (insertBy before x l).
Proof.
  induction 1 as [|y l Hs IH Hy]; cbn.
  - repeat constructor.
  - destruct (before x y) eqn:Hxy.
    + constructor; [now constructor|]. constructor; [exact Hxy|].
      rewrite List.Forall_forall in Hy |- *. intros z Hz.
      now apply (before_trans x y z Hxy), Hy.
    + constructor; [exact IH|].
      rewrite List.Forall_forall in Hy |- *. intros z Hz.
      apply (Permutation_in _ (insertBy_Permutation x l)) in Hz.
      destruct Hz as [<-|Hz]; [now apply before_total|now apply Hy].
Qed.

Lemma orderBy_sorted (l : list A) :
  StronglySorted (fun a b => before a b = true) (orderBy before l).
Proof.
  induction l as [|x l IH]; cbn; [constructor|]. now apply insertBy_sorted.
Qed.

End OrderByFacts.

Section MoreDatabaseFacts.
Import Js DatabaseService DatabaseOps Spec Invariant.
Local Open Scope float_scope.

Lemma StronglySorted_weaken {A} (R S : A -> A -> Prop) (l : list A) :
  (forall x y, R x y -> S x y) -> StronglySorted R l -> StronglySorted S l.
Proof.
  intros HRS. induction 1 as [|x l Hs IH Hx]; constructor; [exact IH|].
  eapply List.Forall_impl; [|exact Hx]. intros y. apply HRS.
Qed.

(** X1: on an open database [getAnomalies] answers with exactly the rows
    whose timestamp lies in the closed range, each as often as it is
    stored, newest first. *)
Theorem getAnomalies_range_newest_first (t : Tables) (startTime endTime : Z) :
  exists rows,
    getAnomalies startTime endTime (Some t) = Some rows
    /\ Permutation rows
         (List.filter (fun r => inRange startTime endTime (ar_timestamp r)) (anomalies t))
    /\ (forall r, In r rows <->
          In r (anomalies t) /\ (startTime <= ar_timestamp r <= endTime)%Z)
    /\ StronglySorted (fun x y => (ar_timestamp y <= ar_timestamp x)%Z) rows.
Proof.
  exists (getAnomaliesFrom t startTime endTime). split; [reflexivity|].
  unfold getAnomaliesFrom.
  set (before := fun x y : AnomalyRow => (ar_timestamp y <=? ar_timestamp x)%Z).
  pose proof (orderBy_Permutation before
    (List.filter (fun r => inRange startTime endTime (ar_timestamp r)) (anomalies t))) as Hp.
  split; [exact Hp|]. split.
  - intros r. split.
    + intros Hin. apply (Permutation_in _ Hp) in Hin.
      apply filter_In in Hin as [Hin Hr]. split; [exact Hin|].
      unfold inRange in Hr. lia.
    + intros [Hin Hr]. apply (Permutation_in _ (Permutation_sym Hp)).
      apply filter_In. split; [exact Hin|]. unfold inRange. lia.
  - eapply StronglySorted_weaken; [|apply orderBy_sorted].
    + intros x y H. unfold before in H. lia.
    + intros x y H. unfold before in *. lia.
    + intros x y z H1 H2. unfold before in *. lia.
Qed.

(** X2: [getScans] answers with exactly the scans of the closed range,
    oldest first. *)
Theorem getScans_range_oldest_first (t : Tables) (startTime endTime : Z) :
  exists rows,
    getScans startTime endTime (Some t) = Some rows
    /\ Permutation rows
         (List.filter (fun r => inRange startTime endTime (sr_timestamp r)) (scans t))
    /\ (forall r, In r rows <->
          In r (scans t) /\ (startTime <= sr_timestamp r <= endTime)%Z)
    /\ StronglySorted (fun x y => (sr_timestamp x <= sr_timestamp y)%Z) rows.
Proof.
  exists (getScansFrom t startTime endTime). split; [reflexivity|].
  unfold getScansFrom.
  set (before := fun x y : ScanRow => (sr_timestamp x <=? sr_timestamp y)%Z).
  pose proof (orderBy_Permutation before
    (List.filter (fun r => inRange startTime endTime (sr_timestamp r)) (scans t))) as Hp.
  split; [exact Hp|]. split.
  - intros r. split.
    + intros Hin. apply (Permutation_in _ Hp) in Hin.
      apply filter_In in Hin as [Hin Hr]. split; [exact Hin|].
      unfold inRange in Hr. lia.
    + intros [Hin Hr]. apply (Permutation_in _ (Permutation_sym Hp)).
      apply filter_In. split; [exact Hin|]. unfold inRange. lia.
  - eapply StronglySorted_weaken; [|apply orderBy_sorted].
    + intros x y H. unfold before in H. lia.
    + intros x y H. unfold before in *. lia.
    + intros x y z H1 H2. unfold before in *. lia.
Qed.

(** *** Saving and reading back *)

Lemma orZero_not_nan (x : float) : PrimFloat.is_nan (orZero x) = false.
Proof.
  unfold orZero, truthy.
  destruct (PrimFloat.eqb x 0); cbn; [reflexivity|].
  destruct (PrimFloat.is_nan x) eqn:Hn; cbn; [reflexivity|exact Hn].
Qed.

Lemma orString_not_empty (s d : string) : d <> ""%string -> orString s d <> ""%string.
Proof. intros Hd. destruct s; cbn; [exact Hd|discriminate]. Qed.

Lemma getAnomaliesFrom_length (t : Tables) (startTime endTime : Z) :
  length (getAnomaliesFrom t startTime endTime)
  = length (List.filter (fun r => inRange startTime endTime (ar_timestamp r)) (anomalies t)).
Proof. apply Permutation_length, orderBy_Permutation. Qed.

(** X3: an anomaly saved on an open database is read back by every range
    query that covers its timestamp, exactly once more than before, and by
    no other; the stored value is never NaN and the stored significance is
    never empty. *)
Theorem saveAnomaly_read_back (a : Anomaly) (t : Tables) (startTime endTime : Z) :
  let row := anomalyRow (anomalies_seq t + 1) a in
  exists t',
    saveAnomaly a (Some t) = Some t'
    /\ ((startTime <= timestamp a <= endTime)%Z ->
        In row (getAnomaliesFrom t' startTime endTime)
        /\ length (getAnomaliesFrom t' startTime endTime)
           = S (length (getAnomaliesFrom t startTime endTime)))
    /\ (~ (startTime <= timestamp a <= endTime)%Z ->
        getAnomaliesFrom t' startTime endTime = getAnomaliesFrom t startTime endTime)
    /\ PrimFloat.is_nan (ar_value row) = false
    /\ ar_significance row <> ""%string.
Proof.
  cbv zeta. eexists. split; [reflexivity|].
  split; [|split; [|split]].
  - intros Hr.
    assert (Hin : inRange startTime endTime
                    (ar_timestamp (anomalyRow (anomalies_seq t + 1) a)) = true).
    { unfold inRange. cbn [anomalyRow ar_timestamp]. lia. }
    split.
    + apply (Permutation_in _ (Permutation_sym (orderBy_Permutation _ _))).
      cbn [anomalies]. rewrite List.filter_app. apply in_or_app. right.
      cbn [List.filter]. rewrite Hin. now left.
    + rewrite !getAnomaliesFrom_length. cbn [anomalies].
      rewrite List.filter_app, length_app. cbn [List.filter]. rewrite Hin. cbn. lia.
  - intros Hr. unfold getAnomaliesFrom. cbn [anomalies].
    rewrite List.filter_app. cbn [List.filter].
    assert (Hout : inRange startTime endTime
                     (ar_timestamp (anomalyRow (anomalies_seq t + 1) a)) = false).
    { unfold inRange. cbn [anomalyRow ar_timestamp].
      destruct (Z.leb_spec startTime (timestamp a)), (Z.leb_spec (timestamp a) endTime);
        cbn; try reflexivity. lia. }
    rewrite Hout. now rewrite app_nil_r.
  - apply orZero_not_nan.
  - apply orString_not_empty. discriminate.
Qed.

Lemma saveAnomaly_read_back_witness :
  In (anomalyRow 2 (SensorMonitor.stamp SampleWorld.clock (SampleWorld.detection "")))
     (getAnomaliesFrom
        {| anomalies :=
             anomalies SampleData.morning
             ++ [anomalyRow 2 (SensorMonitor.stamp SampleWorld.clock
                                 (SampleWorld.detection ""))];
           anomalies_seq := 2;
           scans := scans SampleData.morning; scans_seq := scans_seq SampleData.morning;
           daily_reports := []; daily_reports_seq := 0 |}
        1699999999000 1700000001000)
  /\ ar_significance
       (anomalyRow 2 (SensorMonitor.stamp SampleWorld.clock (SampleWorld.detection "")))
     = "low"%string.
Proof.
  split; [|reflexivity].
  destruct (saveAnomaly_read_back
              (SensorMonitor.stamp SampleWorld.clock (SampleWorld.detection ""))
              SampleData.morning 1699999999000 1700000001000)
    as (t' & Hsave & Hin & _).
  injection Hsave as <-. apply Hin. cbn. lia.
Defined.

(** *** Ids and dates *)

Lemma NoDup_snoc {A} (l : list A) (x : A) : ~ In x l -> List.NoDup l -> List.NoDup (l ++ [x]).
Proof.
  intros Hx Hl. apply (Permutation_NoDup (Permutation_cons_append l x)).
  now constructor.
Qed.

Lemma NoDup_map_filter {A B} (f : A -> B) (p : A -> bool) (l : list A) :
  List.NoDup (map f l) -> List.NoDup (map f (List.filter p l)).
Proof.
  induction l as [|x l IH]; cbn; [trivial|].
  intros H. inversion H as [|? ? Hx Hl]; subst.
  destruct (p x); cbn; [|now apply IH].
  constructor; [|now apply IH].
  intros Hin. apply Hx. apply in_map_iff in Hin as (y & Hy & Hin).
  apply in_map_iff. exists y. split; [exact Hy|].
  now apply filter_In in Hin as [Hin _].
Qed.

Lemma FreshIds_append {A} (id : A -> Z) (rows : list A) (seq : Z) (row : A) :
  id row = (seq + 1)%Z -> FreshIds id rows seq -> FreshIds id (rows ++ [row]) (seq + 1).
Proof.
  intros Hid (Hnd & Hseq & Hall). repeat split.
  - rewrite map_app. cbn. apply NoDup_snoc; [|exact Hnd].
    intros Hin. apply in_map_iff in Hin as (y & Hy & Hin).
    rewrite List.Forall_forall in Hall. specialize (Hall y Hin). lia.
  - lia.
  - apply Forall_app. split.
    + eapply List.Forall_impl; [|exact Hall]. cbn. intros; lia.
    + constructor; [lia|constructor].
Qed.

Lemma FreshIds_filter {A} (id : A -> Z) (p : A -> bool) (rows : list A) (seq : Z) :
  FreshIds id rows seq -> FreshIds id (List.filter p rows) seq.
Proof.
  intros (Hnd & Hseq & Hall). repeat split; [now apply NoDup_map_filter|exact Hseq|].
  rewrite List.Forall_forall in Hall |- *. intros r Hr.
  apply filter_In in Hr as [Hr _]. now apply Hall.
Qed.

Lemma WellFormed_emptyTables : WellFormed emptyTables.
Proof.
  repeat split; cbn; try constructor; try lia.
Qed.

Lemma WellFormed_insertOrReplace (report : Report) (t : Tables) :
  WellFormed t -> WellFormed (insertOrReplace report t).
Proof.
  intros (Ha & Hs & Hr & Hd). split; [exact Ha|]. split; [exact Hs|]. split.
  - cbn [insertOrReplace daily_reports daily_reports_seq].
    apply FreshIds_append; [reflexivity|]. now apply FreshIds_filter.
  - cbn [insertOrReplace daily_reports]. rewrite map_app. cbn.
    apply NoDup_snoc; [|now apply NoDup_map_filter].
    intros Hin. apply in_map_iff in Hin as (y & Hy & Hin).
    apply filter_In in Hin as [_ Hne]. rewrite Hy, String.eqb_refl in Hne. discriminate.
Qed.

(** X4: the three writes keep the stored tables well formed: ids are
    positive, never reused and never above the table's counter, and no two
    stored reports share a date. *)
Theorem writes_keep_tables_well_formed (t : Tables) :
  WellFormed t ->
  (forall a t', saveAnomaly a (Some t) = Some t' -> WellFormed t')
  /\ (forall s t', saveScan s (Some t) = Some t' -> WellFormed t')
  /\ (forall d r t', generateDailyReport d (Some t) = Some (r, t') -> WellFormed t').
Proof.
  intros Hwf. pose proof Hwf as (Ha & Hs & Hr & Hd). split; [|split].
  - intros a t' [= <-]. split; [|now split].
    cbn [anomalies anomalies_seq]. now apply FreshIds_append.
  - intros s t' [= <-]. split; [exact Ha|]. split; [|now split].
    cbn [scans scans_seq]. now apply FreshIds_append.
  - intros d r t' H. rewrite generateDailyReport_open in H. injection H as <- <-.
    now apply WellFormed_insertOrReplace.
Qed.

Lemma writes_keep_tables_well_formed_witness :
  WellFormed emptyTables
  /\ WellFormed (insertOrReplace (reportOf SampleData.day emptyTables) emptyTables).
Proof.
  split; [exact WellFormed_emptyTables|].
  exact (proj2 (proj2 (writes_keep_tables_well_formed emptyTables WellFormed_emptyTables))
           SampleData.day _ _ (generateDailyReport_open SampleData.day emptyTables)).
Defined.

(** X5: generating a daily report touches nothing but the stored report of
    its own date: the anomalies and the scans stay as they are, and so do
    the stored reports of every other date. *)
Theorem generateDailyReport_frame (d : JsDate) (t : Tables) :
  exists report t',
    generateDailyReport d (Some t) = Some (report, t')
    /\ anomalies t' = anomalies t
    /\ scans t' = scans t
    /\ anomalies_seq t' = anomalies_seq t
    /\ scans_seq t' = scans_seq t
    /\ (forall day, day <> isoDate d -> reportsFor day t' = reportsFor day t).
Proof.
  eexists. eexists. split; [apply generateDailyReport_open|].
  repeat split. intros day Hday.
  now apply (reportsFor_other_day d); [apply date_reportOf|].
Qed.

End MoreDatabaseFacts.

Section PatternFacts.
Import Js DatabaseService DatabaseOps Spec Invariant.
Local Open Scope float_scope.

(** *** Pattern analysis *)

Lemma filter_length_le {A} (p q : A -> bool) (l : list A) :
  (forall x, p x = true -> q x = true) ->
  (length (List.filter p l) <= length (List.filter q l))%nat.
Proof.
  intros Hpq. induction l as [|x l IH]; cbn; [lia|].
  destruct (p x) eqn:Hp.
  - rewrite (Hpq x Hp). cbn. lia.
  - destruct (q x); cbn; lia.
Qed.

(** X6: the anomalies of the last hour are among those of the last 24
    hours, so [recentCount] never exceeds [anomalyCount]; and when the last
    24 hours hold no anomaly the analysis raises no spike and no pattern
    flag, and its distribution by type is empty. *)
Theorem analyzePatterns_recent_within_daily (now : Z) (t : Tables) :
  exists a,
    analyzePatterns now (Some t) = Some a
    /\ (recentCount a <= anomalyCount a)%nat
    /\ (state51Count a <= anomalyCount a)%nat
    /\ (mutationCount a <= anomalyCount a)%nat
    /\ (anomalyCount a = 0%nat ->
        recentCount a = 0%nat
        /\ anomalySpike a = false
        /\ patterns a = {| hasState51 := false; hasMutation := false;
                           hasCosmicCorrelation := false |}
        /\ typeDistribution a = ∅).
Proof.
  eexists. split; [reflexivity|].
  assert (Hle : (length (getAnomaliesFrom t (now - 3600000) now)
                 <= length (getAnomaliesFrom t (now - 86400000) now))%nat).
  { rewrite !getAnomaliesFrom_length. apply filter_length_le.
    intros x. unfold inRange. lia. }
  split; [exact Hle|]. split; [apply List.filter_length_le|].
  split; [apply List.filter_length_le|].
  cbn [anomalyCount analyze]. intros H0.
  assert (Hd : getAnomaliesFrom t (now - 86400000) now = []).
  { now apply length_zero_iff_nil. }
  assert (Hr : getAnomaliesFrom t (now - 3600000) now = []).
  { apply length_zero_iff_nil. rewrite H0 in Hle. lia. }
  rewrite Hd, Hr. repeat split.
Qed.









End PatternFacts.

Section ReportFacts.
Import Js DatabaseService DatabaseOps Spec Invariant Double.
Local Open Scope float_scope.

(** *** Spikes *)

Lemma count_nonneg (k : nat) :
  (Z.of_nat k < 2 ^ 63)%Z -> nonnegSF (Prim2SF (num k)).
Proof.
  intros Hb. destruct k as [|k].
  - exact I.
  - apply signed_nonneg, positive_count; lia.
Qed.

(** X9: a spike needs a recent anomaly: when the last hour holds no
    anomaly, [anomalySpike] is false whatever the last 24 hours hold. *)
Theorem no_spike_without_recent_anomaly (now : Z) (t : Tables) :
  (Z.of_nat (length (anomalies t)) < 2 ^ 63)%Z ->
  exists a,
    analyzePatterns now (Some t) = Some a
    /\ (recentCount a = 0%nat -> anomalySpike a = false).
Proof.
  intros Hb. eexists. split; [reflexivity|].
  cbn [recentCount anomalySpike analyze]. intros H0.
  apply length_zero_iff_nil in H0. rewrite H0.
  unfold gt, lt. change (len []) with 0.
  apply nonneg_not_below_zero.
  rewrite mul_spec, div_spec.
  let v := eval vm_compute in (Prim2SF 24) in change (Prim2SF 24) with v.
  let v := eval vm_compute in (Prim2SF 2) in change (Prim2SF 2) with v.
  apply SFmul_nonneg, SFdiv_nonneg.
  change (len (getAnomaliesFrom t (now - 86400000) now))
    with (num (length (getAnomaliesFrom t (now - 86400000) now))).
  apply count_nonneg. rewrite getAnomaliesFrom_length.
  pose proof (List.filter_length_le
    (fun r => inRange (now - 86400000) now (ar_timestamp r)) (anomalies t)). lia.
Qed.

Lemma no_spike_without_recent_anomaly_witness :
  option_map anomalySpike (analyzePatterns 1700000000000 (Some SampleData.morning))
  = Some false.
Proof.
  destruct (no_spike_without_recent_anomaly 1700000000000 SampleData.morning)
    as (a & Ha & Hspike); [cbn; lia|].
  rewrite Ha. cbn [option_map]. f_equal. apply Hspike.
  injection Ha as <-. reflexivity.
Defined.

(** *** Reports of quiet days *)

Lemma filter_all_false {A} (p : A -> bool) (l : list A) :
  Forall (fun x => p x = false) l -> List.filter p l = [].
Proof.
  induction 1 as [|x l Hx _ IH]; cbn; [reflexivity|]. now rewrite Hx.
Qed.

(** X10: the report of a day without anomalies counts nothing, lists no
    key finding (the cosmic share of zero anomalies is NaN, which is not
    above 0.5) and gives the generation effect the rate 0 and the label
    "none", whatever scans the day holds. *)
Theorem report_of_a_day_without_anomalies (d : JsDate) (t : Tables) :
  getAnomaliesFrom t (startOfDay d) (endOfDay d) = [] ->
  (Z.of_nat (length (scans t)) < 2 ^ 63)%Z ->
  let r := reportOf d t in
  totalAnomalies r = 0%nat /\ highSignificance r = 0%nat
  /\ cosmicWindowAnomalies r = 0%nat /\ state51Correlations r = 0%nat
  /\ batteryAnomalies r = 0%nat /\ magneticAnomalies r = 0%nat
  /\ frequencyMatches r = 0%nat
  /\ keyFindings r = []
  /\ anomalyRate (state51Effect r) = 0
  /\ correlation (state51Effect r) = "none"%string.
Proof.
  intros Hday Hb. cbv zeta. unfold reportOf. rewrite Hday.
  do 8 (split; [reflexivity|]).
  cbn [buildReport state51Effect anomalyRate correlation].
  assert (Hrate : state51AnomalyRate [] (getScansFrom t (startOfDay d) (endOfDay d)) = 0).
  { unfold state51AnomalyRate.
    destruct (Nat.ltb_spec 0 (length (List.filter isActive
                (getScansFrom t (startOfDay d) (endOfDay d))))) as [Hpos|_];
      [|reflexivity].
    change (num (count _ [])) with 0.
    apply zero_div_positive.
    change (len ?l) with (num (length l)).
    apply positive_count; [exact Hpos|].
    pose proof (List.filter_length_le isActive
                  (getScansFrom t (startOfDay d) (endOfDay d))) as H1.
    assert (H2 : (length (getScansFrom t (startOfDay d) (endOfDay d))
                  <= length (scans t))%nat).
    { unfold getScansFrom. rewrite (Permutation_length (orderBy_Permutation _ _)).
      apply List.filter_length_le. }
    lia. }
  rewrite Hrate. split; reflexivity.
Qed.

Lemma report_of_a_day_without_anomalies_witness :
  keyFindings (reportOf SampleData.day
                 (withData emptyTables [] 0 SampleData.eveningScans 2)) = []
  /\ correlation (state51Effect (reportOf SampleData.day
                 (withData emptyTables [] 0 SampleData.eveningScans 2))) = "none"%string.
Proof.
  pose proof (report_of_a_day_without_anomalies SampleData.day
                (withData emptyTables [] 0 SampleData.eveningScans 2)
                eq_refl ltac:(cbn; lia)) as H.
  cbv zeta in H. split; [apply H|apply H].
Defined.

(** X11: while no stored scan is flagged generation-active, every daily
    report gives the generation effect no active period, the rate 0 and the
    label "none", whatever anomalies the day holds. *)
Theorem no_active_scan_no_correlation (d : JsDate) (t : Tables) :
  NoActiveScan t ->
  state51Effect (reportOf d t)
  = {| activePeriods := 0; anomalyRate := 0; correlation := "none" |}.
Proof.
  intros Hna. unfold reportOf.
  assert (Hf : List.filter isActive (getScansFrom t (startOfDay d) (endOfDay d)) = []).
  { apply filter_all_false. apply List.Forall_forall. intros s Hs.
    unfold getScansFrom in Hs.
    apply (Permutation_in _ (orderBy_Permutation _ _)) in Hs.
    apply filter_In in Hs as [Hs _].
    unfold NoActiveScan in Hna. rewrite List.Forall_forall in Hna. now apply Hna. }
  cbn [buildReport state51Effect]. unfold state51AnomalyRate, count. rewrite Hf.
  reflexivity.
Qed.

Lemma no_active_scan_no_correlation_witness :
  NoActiveScan SampleData.morning
  /\ correlation (state51Effect (reportOf SampleData.day SampleData.morning))
     = "none"%string.
Proof.
  assert (H : NoActiveScan SampleData.morning) by (repeat constructor).
  split; [exact H|].
  now rewrite (no_active_scan_no_correlation SampleData.day SampleData.morning H).
Defined.

End ReportFacts.

Section TrendFacts.
Import Js DatabaseService DatabaseOps Spec Invariant Double.
Local Open Scope float_scope.

(** *** Trends of flat series *)








Lemma halves_of_double (h : list float) : halves (h ++ h) = (h, h).
Proof.
  unfold halves. rewrite length_app.
  replace ((length h + length h) / 2)%nat with (length h)
    by (replace (length h + length h)%nat with (length h * 2)%nat by lia;
        now rewrite Nat.div_mul).
  rewrite firstn_app, firstn_all, Nat.sub_diag, skipn_app, skipn_all, Nat.sub_diag.
  cbn. now rewrite app_nil_r.
Qed.

(** X13: a series whose second half repeats its first half, with a
    finite mean other than zero, is labelled "stable". *)
Theorem trend_of_repeated_half (h : list float) :
  finiteNonzero (sum h / len h) = true ->
  calculateTrend (h ++ h) = "stable"%string.
Proof.
  intros Hx.
  assert (Hlen : (2 <= length (h ++ h))%nat).
  { destruct h as [|v h]; [discriminate Hx|]. rewrite length_app. cbn. lia. }
  rewrite (calculateTrend_long _ Hlen).
  unfold percentChange. rewrite halves_of_double. cbv zeta.
  unfold lt. now rewrite (no_change_percent _ Hx).
Qed.

Lemma trend_of_repeated_half_witness :
  finiteNonzero (sum [0.9; 0.5] / len [0.9; 0.5]) = true
  /\ calculateTrend [0.9; 0.5; 0.9; 0.5] = "stable"%string.
Proof.
  split; [reflexivity|].
  exact (trend_of_repeated_half [0.9; 0.5] eq_refl).
Defined.

(** *** Stored reports read back *)

(** X14: a report just generated is read back by [getDailyReports]
    whenever the limit is negative or covers the table: the rows returned
    are the stored ones, and the only row for the date is the one built
    from the report. For a limit of 0 or more, no more rows than the limit
    are returned. *)
Theorem getDailyReports_reads_back (d : JsDate) (t : Tables) (limit : Z) :
  let report := reportOf d t in
  let t' := insertOrReplace report t in
  let row := reportRow (daily_reports_seq t + 1) report in
  generateDailyReport d (Some t) = Some (report, t')
  /\ exists rows,
       getDailyReports limit (Some t') = Some rows
       /\ ((0 <= limit)%Z -> (length rows <= Z.to_nat limit)%nat)
       /\ ((limit < 0)%Z \/ (length (daily_reports t') <= Z.to_nat limit)%nat ->
           Permutation rows (daily_reports t')
           /\ In row rows
           /\ (forall r, In r rows -> dr_date r = isoDate d -> r = row)).
Proof.
  cbv zeta. split; [reflexivity|].
  set (t' := insertOrReplace (reportOf d t) t).
  set (sorted := orderBy (fun x y => String.leb (dr_date y) (dr_date x)) (daily_reports t')).
  assert (Hp : Permutation sorted (daily_reports t')) by apply orderBy_Permutation.
  exists (if (limit <? 0)%Z then sorted else firstn (Z.to_nat limit) sorted).
  split; [reflexivity|]. split.
  - intros Hl. destruct (Z.ltb_spec limit 0) as [|_]; [lia|]. apply firstn_le_length.
  - intros Hcover.
    assert (Hall : (if (limit <? 0)%Z then sorted else firstn (Z.to_nat limit) sorted)
                   = sorted).
    { destruct (Z.ltb_spec limit 0) as [|Hge]; [reflexivity|].
      apply firstn_all2. rewrite (Permutation_length Hp).
      destruct Hcover; [lia|assumption]. }
    rewrite Hall. split; [exact Hp|].
    pose proof (reportsFor_insertOrReplace d (reportOf d t) t (date_reportOf d t)) as Hone.
    fold t' in Hone. unfold reportsFor in Hone. split.
    + apply (Permutation_in _ (Permutation_sym Hp)).
      assert (Hin : In (reportRow (daily_reports_seq t + 1) (reportOf d t))
                      (List.filter (fun r => String.eqb (dr_date r) (isoDate d))
                                   (daily_reports t'))).
      { rewrite Hone. now left. }
      now apply filter_In in Hin as [Hin _].
    + intros r Hr Hd. apply (Permutation_in _ Hp) in Hr.
      assert (Hin : In r (List.filter (fun r => String.eqb (dr_date r) (isoDate d))
                                      (daily_reports t'))).
      { apply filter_In. split; [exact Hr|]. now apply String.eqb_eq. }
      rewrite Hone in Hin. destruct Hin as [<-|[]]. reflexivity.
Qed.

Lemma getDailyReports_reads_back_witness :
  option_map (map dr_date)
    (getDailyReports 30
       (Some (insertOrReplace (reportOf SampleData.day SampleData.morning)
                SampleData.morning)))
  = Some ["1970-01-02"%string].
Proof.
  destruct (getDailyReports_reads_back SampleData.day SampleData.morning 30)
    as (_ & rows & Hrows & _ & _).
  rewrite Hrows. injection Hrows as <-. reflexivity.
Defined.

(** *** Key findings *)

(** X15: each key finding is listed exactly when its threshold is
    crossed: more than 5 anomalies whose type contains "51", a cosmic-window
    share above 0.5, at least one battery anomaly, at least one frequency
    match. *)
Theorem keyFindings_thresholds (d : JsDate) (anomalies : list AnomalyRow)
    (scans : list ScanRow) :
  let r := buildReport d anomalies scans in
  (In "Multiple State 51 resonances detected"%string (keyFindings r)
   <-> (5 < state51Correlations r)%nat)
  /\ (In "High cosmic window correlation"%string (keyFindings r)
      <-> gt (num (cosmicWindowAnomalies r) / num (totalAnomalies r)) 0.5 = true)
  /\ (In "Battery anomalies detected"%string (keyFindings r)
      <-> (0 < batteryAnomalies r)%nat)
  /\ (In "Quantum frequency matches found"%string (keyFindings r)
      <-> (0 < frequencyMatches r)%nat).
Proof.
  cbv zeta.
  cbn [buildReport keyFindings state51Correlations cosmicWindowAnomalies
       totalAnomalies batteryAnomalies frequencyMatches].
  destruct (Nat.ltb_spec 5 (count (fun a => includes (ar_type a) "51") anomalies));
    destruct (gt (num (count (fun a => (ar_cosmic_window a =? 1)%Z) anomalies)
                  / num (length anomalies)) 0.5);
    destruct (Nat.ltb_spec 0 (count (fun a => includes (ar_type a) "battery") anomalies));
    destruct (Nat.ltb_spec 0 (count (fun a => includes (ar_type a) "frequency") anomalies));
    cbn [app In];
    repeat split; intros; try lia; try reflexivity; try discriminate; auto;
    repeat match goal with
           | H : _ \/ _ |- _ => destruct H
           | H : False |- _ => destruct H
           | H : _ = _ |- _ => discriminate H
           end.
Qed.

(** *** Export *)

Lemma filter_all_true {A} (p : A -> bool) (l : list A) :
  Forall (fun x => p x = true) l -> List.filter p l = l.
Proof.
  induction 1 as [|x l Hx _ IH]; cbn; [reflexivity|]. now rewrite Hx, IH.
Qed.

(** X16: [exportData] on an open database counts what it exports; when
    every stored anomaly and scan is stamped between 0 and [now] and at most
    365 reports are stored, nothing is left out: the export holds every
    stored row and the totals are the sizes of the tables. *)
Theorem exportData_is_complete (now : Z) (isoNow : string) (t : Tables) :
  Forall (fun r => (0 <= ar_timestamp r <= now)%Z) (anomalies t) ->
  Forall (fun r => (0 <= sr_timestamp r <= now)%Z) (scans t) ->
  (length (daily_reports t) <= 365)%nat ->
  exists e,
    exportData now isoNow (Some t) = Some e
    /\ Permutation (exportAnomalies e) (anomalies t)
    /\ Permutation (exportScans e) (scans t)
    /\ Permutation (exportReports e) (daily_reports t)
    /\ statistics e = {| statTotalAnomalies := length (anomalies t);
                         statTotalScans := length (scans t);
                         statTotalReports := length (daily_reports t) |}.
Proof.
  intros Ha Hs Hr. unfold exportData, getAnomalies, getScans, getDailyReports.
  change (365 <? 0)%Z with false. cbv iota.
  eexists. split; [reflexivity|].
  cbn [exportAnomalies exportScans exportReports statistics].
  assert (Pa : Permutation (getAnomaliesFrom t 0 now) (anomalies t)).
  { unfold getAnomaliesFrom. rewrite orderBy_Permutation.
    rewrite filter_all_true; [reflexivity|].
    eapply List.Forall_impl; [|exact Ha]. intros r H. unfold inRange. cbv beta in *. lia. }
  assert (Ps : Permutation (getScansFrom t 0 now) (scans t)).
  { unfold getScansFrom. rewrite orderBy_Permutation.
    rewrite filter_all_true; [reflexivity|].
    eapply List.Forall_impl; [|exact Hs]. intros r H. unfold inRange. cbv beta in *. lia. }
  assert (Pr : Permutation
                 (firstn (Z.to_nat 365)
                    (orderBy (fun x y => String.leb (dr_date y) (dr_date x))
                             (daily_reports t)))
                 (daily_reports t)).
  { rewrite firstn_all2; [apply orderBy_Permutation|].
    rewrite (Permutation_length (orderBy_Permutation _ _)). lia. }
  split; [exact Pa|]. split; [exact Ps|]. split; [exact Pr|].
  now rewrite (Permutation_length Pa), (Permutation_length Ps), (Permutation_length Pr).
Qed.

Lemma exportData_is_complete_witness :
  option_map statistics (exportData 100000000 "1970-01-02T03:46:40.000Z" (Some SampleData.morning))
  = Some {| statTotalAnomalies := 1; statTotalScans := 1; statTotalReports := 0 |}.
Proof.
  destruct (exportData_is_complete 100000000 "1970-01-02T03:46:40.000Z" SampleData.morning)
    as (e & He & _ & _ & _ & Hstat).
  - repeat constructor; cbn; lia.
  - repeat constructor; cbn; lia.
  - cbn. lia.
  - rewrite He. cbn [option_map]. now rewrite Hstat.
Defined.

End TrendFacts.

(* ===================================================================== *)
(** ** Further properties of SensorMonitor *)
(* ===================================================================== *)

Section PeakFacts.
Import Js SensorMonitor Spec Peak.
Local Open Scope float_scope.

(** *** Peaks *)

Lemma SFcompare_antisym (X Y : spec_float) :
  SFcompare Y X = option_map CompOpp (SFcompare X Y).
Proof.
  destruct X as [[]|[]| |[] mx ex], Y as [[]|[]| |[] my ey]; try reflexivity;
    cbn [SFcompare option_map]; rewrite (Z.compare_antisym ex ey);
    pose proof (Pos.compare_cont_antisym mx my Eq) as Hc; cbn [CompOpp] in Hc;
    rewrite <- Hc;
    destruct (ex ?= ey)%Z, (Pos.compare_cont Eq mx my); reflexivity.
Qed.

(** [x < y] and [y < x] never hold together. *)
Lemma gt_asymmetric (x y : float) : gt x y = true -> gt y x = false.
Proof.
  unfold gt. rewrite !FloatAxioms.ltb_spec. unfold SFltb.
  rewrite (SFcompare_antisym (Prim2SF y) (Prim2SF x)).
  destruct (SFcompare (Prim2SF y) (Prim2SF x)) as [[]|]; cbn; congruence.
Qed.

Lemma findPeaks_window (prev cur next : Sample) (rest : list Sample) :
  findPeaks (prev :: cur :: next :: rest)
  = (if isPeak prev cur next then [cur] else []) ++ findPeaks (cur :: next :: rest).
Proof. unfold isPeak. cbn [findPeaks]. now destruct (_ && _). Qed.

Lemma findPeaks_tail (x : Sample) (l : list Sample) (p : Sample) :
  In p (findPeaks l) -> In p (findPeaks (x :: l)).
Proof.
  destruct l as [|b [|c r]]; [intros []|intros []|].
  intros H. rewrite findPeaks_window. apply in_or_app. now right.
Qed.

(** X17: the peaks are exactly the interior points that are strictly
    above both neighbours; the first and the last point of a buffer are
    never peaks. *)
Theorem findPeaks_interior_maxima (buffer : list Sample) (p : Sample) :
  In p (findPeaks buffer) <->
  exists before prev next after,
    buffer = before ++ prev :: p :: next :: after
    /\ gt (sampleValue p) (sampleValue prev) = true
    /\ gt (sampleValue p) (sampleValue next) = true.
Proof.
  split.
  - induction buffer as [|a l IH]; [intros []|].
    destruct l as [|b [|c r]]; [intros []|intros []|].
    rewrite findPeaks_window. intros H. apply in_app_or in H as [H|H].
    + unfold isPeak in H. destruct (gt (sampleValue b) (sampleValue a)) eqn:H1;
        destruct (gt (sampleValue b) (sampleValue c)) eqn:H2; cbn in H;
        try contradiction.
      destruct H as [<-|[]]. now exists [], a, c, r.
    + destruct (IH H) as (before & prev & next & after & Heq & H1 & H2).
      exists (a :: before), prev, next, after. cbn. now rewrite Heq.
  - intros (before & prev & next & after & -> & H1 & H2).
    induction before as [|x before IH]; cbn [app].
    + rewrite findPeaks_window. apply in_or_app. left.
      unfold isPeak. rewrite H1, H2. now left.
    + now apply findPeaks_tail.
Qed.

Lemma findPeaks_after_peak (cur next : Sample) (rest : list Sample) :
  gt (sampleValue cur) (sampleValue next) = true ->
  findPeaks (cur :: next :: rest) = findPeaks (next :: rest).
Proof.
  intros H. destruct rest as [|z rest]; [reflexivity|].
  rewrite findPeaks_window. unfold isPeak.
  now rewrite (gt_asymmetric _ _ H).
Qed.

Lemma findPeaks_bound (n : nat) : forall buffer,
  (length buffer <= n)%nat -> (2 * length (findPeaks buffer) + 1 <= length buffer
                               \/ buffer = [])%nat.
Proof.
  induction n as [|n IH]; intros buffer Hn.
  - right. destruct buffer; [reflexivity|cbn in Hn; lia].
  - destruct buffer as [|a [|b [|c r]]]; [now right|left; cbn; lia|left; cbn; lia|].
    left. rewrite findPeaks_window. rewrite length_app.
    unfold isPeak.
    destruct (gt (sampleValue b) (sampleValue a) && gt (sampleValue b) (sampleValue c))
      eqn:Hp.
    + apply andb_prop in Hp as [_ Hbc].
      rewrite (findPeaks_after_peak b c r Hbc).
      destruct (IH (c :: r)) as [H|H]; [cbn in Hn |- *; lia| |discriminate].
      cbn [length] in H |- *. lia.
    + destruct (IH (b :: c :: r)) as [H|H]; [cbn in Hn |- *; lia| |discriminate].
      cbn [length] in H |- *. lia.
Qed.

(** X18: two neighbouring points are never both peaks: a buffer of [n]
    points, [n] at least 1, has at most [(n - 1) / 2] peaks. *)
Theorem findPeaks_at_most_half (buffer : list Sample) :
  buffer <> [] -> (2 * length (findPeaks buffer) + 1 <= length buffer)%nat.
Proof.
  intros Hne. destruct (findPeaks_bound (length buffer) buffer (le_n _)) as [H|H];
    [exact H|contradiction].
Qed.

Lemma findPeaks_at_most_half_witness :
  (2 * length (findPeaks [ {| sampleValue := 1; sampleTimestamp := 0 |};
                           {| sampleValue := 2; sampleTimestamp := 100 |};
                           {| sampleValue := 1; sampleTimestamp := 200 |} ]) + 1 <= 3)%nat.
Proof.
  apply (findPeaks_at_most_half
           [ {| sampleValue := 1; sampleTimestamp := 0 |};
             {| sampleValue := 2; sampleTimestamp := 100 |};
             {| sampleValue := 1; sampleTimestamp := 200 |} ]).
  discriminate.
Defined.

End PeakFacts.

Section RecordingFacts.
Import Js SensorMonitor Session Spec Invariant.
Local Open Scope float_scope.

(** *** What a sample can change *)

Lemma saveAll_app (l1 l2 : list Anomaly) (db : option DatabaseService.Tables) :
  saveAll (l1 ++ l2) db = saveAll l2 (saveAll l1 db).
Proof. apply fold_left_app. Qed.

Lemma saveAll_None (l : list Anomaly) : saveAll l None = None.
Proof. induction l as [|a l IH]; [reflexivity|exact IH]. Qed.

Lemma saveAll_Some (l : list Anomaly) (t : DatabaseService.Tables) :
  exists t',
    saveAll l (Some t) = Some t'
    /\ map (fun r => (DatabaseService.ar_timestamp r, DatabaseService.ar_type r,
                      DatabaseService.ar_cosmic_window r)) (DatabaseService.anomalies t')
       = map (fun r => (DatabaseService.ar_timestamp r, DatabaseService.ar_type r,
                        DatabaseService.ar_cosmic_window r)) (DatabaseService.anomalies t)
         ++ map (fun a => (timestamp a, type (detail a),
                           if cosmicWindow a then 1%Z else 0%Z)) l
    /\ DatabaseService.scans t' = DatabaseService.scans t
    /\ DatabaseService.scans_seq t' = DatabaseService.scans_seq t
    /\ DatabaseService.daily_reports t' = DatabaseService.daily_reports t
    /\ DatabaseService.daily_reports_seq t' = DatabaseService.daily_reports_seq t
    /\ length (DatabaseService.anomalies t')
       = (length (DatabaseService.anomalies t) + length l)%nat.
Proof.
  revert t. induction l as [|a l IH]; intros t.
  - exists t. cbn. rewrite app_nil_r. repeat split. lia.
  - cbn [saveAll fold_left DatabaseService.saveAnomaly].
    destruct (IH {| DatabaseService.anomalies :=
                      DatabaseService.anomalies t
                      ++ [DatabaseService.anomalyRow (DatabaseService.anomalies_seq t + 1) a];
                    DatabaseService.anomalies_seq := DatabaseService.anomalies_seq t + 1;
                    DatabaseService.scans := DatabaseService.scans t;
                    DatabaseService.scans_seq := DatabaseService.scans_seq t;
                    DatabaseService.daily_reports := DatabaseService.daily_reports t;
                    DatabaseService.daily_reports_seq :=
                      DatabaseService.daily_reports_seq t |})
      as (t' & Hs & Hm & H1 & H2 & H3 & H4 & H5).
    exists t'. split; [exact Hs|]. cbn in Hm, H1, H2, H3, H4, H5.
    repeat split; try assumption.
    + rewrite Hm, map_app. cbn. now rewrite <- app_assoc.
    + rewrite H5, length_app. cbn. lia.
Qed.

Lemma Recorded_refl (w : World) : Recorded [] w w.
Proof.
  repeat split; cbn; try now rewrite app_nil_r.
  destruct (database w); now rewrite app_nil_r.
Qed.

Lemma Recorded_silent (w : World) (m : Monitor) :
  anomalies m = anomalies (monitor w) ->
  isMonitoring m = isMonitoring (monitor w) ->
  subscriptions m = subscriptions (monitor w) ->
  baselineData m = baselineData (monitor w) ->
  thresholds m = thresholds (monitor w) ->
  Recorded [] w (withMonitor w m).
Proof.
  intros Ha Hi Hs Hb Ht. repeat split; cbn; try assumption.
  - now rewrite Ha, app_nil_r.
  - destruct (database w); now rewrite app_nil_r.
Qed.

Lemma Recorded_recordAnomaly (c : Clock) (d : Detection) (w : World) :
  Recorded [stamp c d] w (recordAnomaly c d w).
Proof.
  unfold recordAnomaly, Recorded, saveAll. cbn [fold_left].
  destruct (database w) as [t|] eqn:Hdb; cbn; repeat split.
  - destruct (alertable d); [reflexivity|now rewrite app_nil_r].
  - now rewrite app_nil_r.
Qed.

Lemma Recorded_trans (l1 l2 : list Anomaly) (w w1 w2 : World) :
  Recorded l1 w w1 -> Recorded l2 w1 w2 -> Recorded (l1 ++ l2) w w2.
Proof.
  intros (A1 & D1 & L1 & R1 & I1 & S1 & B1 & T1) (A2 & D2 & L2 & R2 & I2 & S2 & B2 & T2).
  repeat split; try congruence.
  - rewrite A2, A1. now rewrite app_assoc.
  - rewrite D2, D1. symmetry. apply saveAll_app.
  - rewrite L2, L1, D1. destruct (database w) as [t|].
    + destruct (saveAll_Some l1 t) as (t' & -> & _).
      now rewrite List.filter_app, app_assoc.
    + rewrite saveAll_None. now rewrite !app_nil_r.
Qed.

Lemma Recording_refl (w : World) : Recording w w.
Proof. exists []. apply Recorded_refl. Qed.

Lemma Recording_trans (w w1 w2 : World) :
  Recording w w1 -> Recording w1 w2 -> Recording w w2.
Proof. intros [l1 H1] [l2 H2]. exists (l1 ++ l2). now apply (Recorded_trans _ _ w w1). Qed.

Lemma Recording_if (c : Clock) (d : Detection) (b : bool) (w : World) :
  Recording w (if b then recordAnomaly c d w else w).
Proof.
  destruct b; [exists [stamp c d]; apply Recorded_recordAnomaly|apply Recording_refl].
Qed.

Lemma Recording_recordAnomaly (c : Clock) (d : Detection) (w : World) :
  Recording w (recordAnomaly c d w).
Proof. exact (Recording_if c d true w). Qed.

Ltac via_silent :=
  match goal with
  | |- Recording ?w ?t =>
      match t with
      | context [withMonitor w ?m] =>
          apply Recording_trans with (withMonitor w m);
          [exists []; now apply Recorded_silent|]
      end
  end.

Lemma Recording_detectFrequencyPattern c value target sensorType w :
  Recording w (detectFrequencyPattern c value target sensorType w).
Proof.
  unfold detectFrequencyPattern. cbv zeta. via_silent.
  destruct (10 <? length _)%nat; [|apply Recording_refl].
  apply Recording_if.
Qed.

Lemma Recording_handle (c : Clock) (e : Event) (w : World) :
  Recording w (handle c e w).
Proof.
  destruct e as [level|r|r|r|p]; cbn [handle].
  - unfold batteryLevelListener. cbv zeta. via_silent.
    destruct (baselineData _); [|apply Recording_refl].
    eapply Recording_trans; apply Recording_if.
  - unfold magnetometerListener. cbv zeta. via_silent.
    destruct (truthyField _ _); [|apply Recording_refl].
    eapply Recording_trans; apply Recording_if.
  - unfold accelerometerListener. cbv zeta. via_silent.
    apply Recording_detectFrequencyPattern.
  - unfold gyroscopeListener. cbv zeta. via_silent.
    eapply Recording_trans; apply Recording_detectFrequencyPattern.
  - unfold barometerListener. cbv zeta. via_silent.
    destruct (truthyField _ _); [|apply Recording_refl].
    apply Recording_if.
Qed.

Lemma Recording_deliver (c : Clock) (e : Event) (w : World) :
  Recording w (deliver c e w).
Proof.
  unfold deliver. generalize (listeners w) as ls. intros ls.
  revert w. induction ls as [|l ls IH]; intros w; cbn [fold_left].
  - apply Recording_refl.
  - eapply Recording_trans; [|apply IH].
    destruct (sameChannel l (channelOf e)); [apply Recording_handle|apply Recording_refl].
Qed.

Lemma Recording_run (events : list (Clock * Event)) (w : World) :
  Recording w (run events w).
Proof.
  unfold run. revert w. induction events as [|[c e] events IH]; intros w; cbn [fold_left].
  - apply Recording_refl.
  - eapply Recording_trans; [apply Recording_deliver|apply IH].
Qed.

Lemma Mirrors_Recorded (l : list Anomaly) (w w' : World) :
  Recorded l w w' -> Mirrors w -> Mirrors w'.
Proof.
  intros (A & D & L & _) (t & Hdb & Hrows & Halerts).
  rewrite Hdb in D, L. destruct (saveAll_Some l t) as (t' & Hs & Hm & _).
  exists t'. split; [congruence|]. split.
  - now rewrite Hm, Hrows, A, map_app.
  - now rewrite L, Halerts, A, List.filter_app.
Qed.

End RecordingFacts.

(* ===================================================================== *)
(** ** Sessions of the monitor *)
(* ===================================================================== *)

Section SessionFacts.
Import Js SensorMonitor Session Spec Invariant.

Lemma session_invariant (P : World -> Prop) :
  (forall a w, P w -> P (act a w)) ->
  forall actions w, P w -> P (session actions w).
Proof.
  intros Hstep actions. unfold session.
  induction actions as [|a actions IH]; intros w Hw; cbn [fold_left]; [exact Hw|].
  apply IH. now apply Hstep.
Qed.

Lemma session_app (l1 l2 : list Action) (w : World) :
  session (l1 ++ l2) w = session l2 (session l1 w).
Proof. unfold session. apply fold_left_app. Qed.

(** *** What each step leaves alone *)

Lemma analyzeHourlyPatterns_Recording (c : Clock) (w w' : World) :
  analyzeHourlyPatterns c w = Some w' -> Recording w w'.
Proof.
  unfold analyzeHourlyPatterns.
  destruct (DatabaseService.analyzePatterns _ _) as [p|]; [|discriminate].
  intros [= <-]. cbv zeta.
  eapply Recording_trans; apply Recording_if.
Qed.

(** A run of the periodic scan either leaves the world as it is, or saves
    one scan and then records what the hourly analysis finds. *)
Lemma scan_cases c minutes level networkType snapshot (w : World) :
  let w' := fst (scan c minutes level networkType snapshot w) in
  w' = w
  \/ exists t t',
       database w = Some t
       /\ isMonitoring (monitor w) = true
       /\ DatabaseOps.saveScan
            {| DatabaseOps.scanTimestamp := now c;
               DatabaseOps.scanBatteryLevel := Some level;
               DatabaseOps.scanSensors := Some snapshot;
               DatabaseOps.scanNetworkType := Some networkType;
               DatabaseOps.scanAnomalyCount := length (anomalies (monitor w));
               DatabaseOps.scanIsCosmicWindow := isCosmicWindow c;
               DatabaseOps.scanState51Active := false |} (Some t) = Some t'
       /\ Recording {| monitor := monitor w; database := Some t'; alerts := alerts w;
                       listeners := listeners w |} w'.
Proof.
  cbv zeta. unfold scan.
  destruct (isMonitoring (monitor w)) eqn:Hm; cbn [negb]; [|now left].
  destruct (database w) as [t|] eqn:Hdb; [|now left].
  right. cbn [DatabaseOps.saveScan]. eexists. eexists.
  split; [reflexivity|]. split; [reflexivity|]. split; [reflexivity|].
  destruct (minutes =? 0)%Z; [|apply Recording_refl].
  destruct (analyzeHourlyPatterns _ _) as [w'|] eqn:Ha; cbn [fst].
  - now apply (analyzeHourlyPatterns_Recording c).
  - apply Recording_refl.
Qed.

Lemma startMonitoring_frame c level snapshot (w : World) :
  let w' := startMonitoring c level snapshot w in
  anomalies (monitor w') = anomalies (monitor w)
  /\ database w' = database w
  /\ alerts w' = alerts w
  /\ frequencyBuffers (monitor w') = frequencyBuffers (monitor w).
Proof.
  cbv zeta. unfold startMonitoring.
  destruct (isMonitoring (monitor w)); [now repeat split|].
  cbv zeta. cbn [monitor withMonitor baselineData setMonitoring].
  destruct (baselineData (monitor w)); [now repeat split|].
  unfold establishBaseline. cbn [database withMonitor].
  destruct (database w) eqn:Hdb; repeat split; cbn; congruence.
Qed.

(** *** Stopping *)










(** *** The table and the list in memory *)

Lemma Mirrors_frame (w w' : World) :
  anomalies (monitor w') = anomalies (monitor w) ->
  database w' = database w ->
  alerts w' = alerts w ->
  Mirrors w -> Mirrors w'.
Proof.
  intros Ha Hd Hl (t & Hdb & Hrows & Halerts).
  exists t. rewrite Ha, Hd, Hl. now split.
Qed.

Lemma Mirrors_act (a : Action) (w : World) : Mirrors w -> Mirrors (act a w).
Proof.
  intros H. destruct a as [c level snapshot| |c e|c minutes level net snapshot]; cbn [act].
  - destruct (startMonitoring_frame c level snapshot w) as (Ha & Hd & Hl & _).
    now apply (Mirrors_frame w).
  - now apply (Mirrors_frame w).
  - destruct (Recording_deliver c e w) as [l Hl].
    exact (Mirrors_Recorded l w _ Hl H).
  - destruct (scan_cases c minutes level net snapshot w)
      as [->|(t & t' & Hdb & _ & Hs & [l Hr])]; [exact H|].
    refine (Mirrors_Recorded l _ _ Hr _).
    destruct H as (t0 & Hdb0 & Hrows & Halerts).
    exists t'. cbn [database monitor alerts]. split; [reflexivity|].
    assert (t0 = t) as -> by congruence.
    injection Hs as <-. now split.
Qed.

(** X20: on an open database, whatever the session (starts, stops, samples
    delivered, periodic scans with their hourly analysis), the anomalies
    table keeps mirroring the monitor's list (same timestamps, types and
    cosmic flags in the same order), and the alerts raised are exactly the
    high and critical anomalies of that list, each once. *)
Theorem table_mirrors_memory (actions : list Action) (w : World) :
  Mirrors w -> Mirrors (session actions w).
Proof. apply session_invariant. exact Mirrors_act. Qed.

Lemma table_mirrors_memory_witness :
  Mirrors SampleWorld.fresh
  /\ Mirrors (session [SampleSession.start; Deliver SampleWorld.hourLater (BatteryLevel 0.8);
                       SampleSession.tick; Stop]
                      SampleWorld.fresh).
Proof.
  assert (H : Mirrors SampleWorld.fresh).
  { exists DatabaseService.emptyTables. now split. }
  split; [exact H|].
  exact (table_mirrors_memory _ SampleWorld.fresh H).
Defined.

(** X21: on an unopened database the monitor goes through its sessions
    without ever storing or alerting anything, however significant the
    anomalies it lists in memory. *)
Theorem unopened_database_never_alerts (actions : list Action) (w : World) :
  database w = None ->
  database (session actions w) = None
  /\ alerts (session actions w) = alerts w.
Proof.
  intros Hdb.
  apply (session_invariant (fun w' => database w' = None /\ alerts w' = alerts w));
    [|now split].
  clear. intros a w' [Hd Hl].
  destruct a as [c level snapshot| |c e|c minutes level net snapshot]; cbn [act].
  - destruct (startMonitoring_frame c level snapshot w') as (_ & Hd' & Hl' & _).
    split; congruence.
  - now split.
  - destruct (Recording_deliver c e w') as (l & _ & D & L & _).
    rewrite Hd in D, L. rewrite saveAll_None in D. rewrite app_nil_r in L.
    split; congruence.
  - destruct (scan_cases c minutes level net snapshot w')
      as [->|(t & t' & Hdb & _)]; [now split|congruence].
Qed.

Lemma unopened_database_never_alerts_witness :
  alerts (session [Deliver SampleWorld.clock (BatteryLevel 0.8)] SampleSession.unsaved) = []
  /\ map (fun a => (type (detail a), significance (detail a)))
         (anomalies (monitor (session [Deliver SampleWorld.clock (BatteryLevel 0.8)]
                                      SampleSession.unsaved)))
     = [("battery_increase", "critical")].
Proof.
  split; [|reflexivity].
  exact (proj2 (unopened_database_never_alerts
           [Deliver SampleWorld.clock (BatteryLevel 0.8)] SampleSession.unsaved eq_refl)).
Defined.

(** *** Starting *)

(** X22: started on an unopened database, the monitor is left flagged as
    monitoring, with its baseline taken, and with no listener attached;
    starting it again does nothing. Only a stop followed by a start
    attaches the five listeners, the baseline being kept. *)
Theorem startMonitoring_unopened_database c level snapshot (w : World) :
  database w = None ->
  isMonitoring (monitor w) = false ->
  baselineData (monitor w) = None ->
  let w1 := startMonitoring c level snapshot w in
  isMonitoring (monitor w1) = true
  /\ baselineData (monitor w1)
     = Some {| baselineTimestamp := now c; batteryLevel := level; sensors := snapshot |}
  /\ listeners w1 = listeners w
  /\ (forall c' level' snapshot', startMonitoring c' level' snapshot' w1 = w1)
  /\ (forall c' level' snapshot',
        let w2 := startMonitoring c' level' snapshot' (stopMonitoring w1) in
        listeners w2
        = listeners (stopMonitoring w1)
          ++ [Battery; Magnetometer; Accelerometer; Gyroscope; Barometer]
        /\ baselineData (monitor w2) = baselineData (monitor w1)).
Proof.
  intros Hdb Hm Hb. cbv zeta.
  assert (E : startMonitoring c level snapshot w
              = withMonitor (withMonitor w (setMonitoring (monitor w) true))
                  (setBaseline (setMonitoring (monitor w) true)
                     {| baselineTimestamp := now c; batteryLevel := level;
                        sensors := snapshot |})).
  { unfold startMonitoring. rewrite Hm. cbv zeta.
    cbn [monitor withMonitor baselineData setMonitoring]. rewrite Hb.
    unfold establishBaseline. cbn [database withMonitor monitor]. now rewrite Hdb. }
  rewrite E. split; [reflexivity|]. split; [reflexivity|]. split; [reflexivity|].
  split.
  - intros c' level' snapshot'. reflexivity.
  - intros c' level' snapshot'. cbv zeta. split.
    + cbn. now rewrite <- !app_assoc.
    + reflexivity.
Qed.

Lemma startMonitoring_unopened_database_witness :
  isMonitoring (monitor (startMonitoring SampleWorld.clock 0.5 SampleSession.snapshot
                           SampleWorld.unopened)) = true
  /\ listeners (startMonitoring SampleWorld.clock 0.5 SampleSession.snapshot
                  SampleWorld.unopened) = []
  /\ startMonitoring SampleWorld.hourLater 0.5 SampleSession.snapshot
       (startMonitoring SampleWorld.clock 0.5 SampleSession.snapshot SampleWorld.unopened)
     = startMonitoring SampleWorld.clock 0.5 SampleSession.snapshot SampleWorld.unopened.
Proof.
  pose proof (startMonitoring_unopened_database SampleWorld.clock 0.5 SampleSession.snapshot
                SampleWorld.unopened eq_refl eq_refl eq_refl) as H.
  cbv zeta in H. destruct H as (H1 & _ & H3 & H4 & _).
  split; [exact H1|]. split; [exact H3|]. apply H4.
Defined.

(** *** Scans *)

Lemma NoActiveScanIn_saveAll (l : list Anomaly) (db : option DatabaseService.Tables) :
  NoActiveScanIn db -> NoActiveScanIn (saveAll l db).
Proof.
  destruct db as [t|]; [|now rewrite saveAll_None].
  destruct (saveAll_Some l t) as (t' & -> & _ & Hs & _).
  cbn [NoActiveScanIn]. unfold NoActiveScan. now rewrite Hs.
Qed.

Lemma NoActiveScan_saveScan (s : DatabaseOps.Scan) (t t' : DatabaseService.Tables) :
  DatabaseOps.scanState51Active s = false ->
  DatabaseOps.saveScan s (Some t) = Some t' ->
  NoActiveScan t -> NoActiveScan t'.
Proof.
  intros Hs [= <-] H. unfold NoActiveScan in *. cbn [DatabaseService.scans].
  apply Forall_app. split; [exact H|].
  constructor; [|constructor].
  unfold DatabaseService.isActive, DatabaseOps.scanRow.
  cbn [DatabaseService.sr_state51_active]. now rewrite Hs.
Qed.

Lemma NoActiveScanIn_act (a : Action) (w : World) :
  NoActiveScanIn (database w) -> NoActiveScanIn (database (act a w)).
Proof.
  intros H. destruct a as [c level snapshot| |c e|c minutes level net snapshot]; cbn [act].
  - destruct (startMonitoring_frame c level snapshot w) as (_ & -> & _). exact H.
  - exact H.
  - destruct (Recording_deliver c e w) as (l & _ & -> & _).
    now apply NoActiveScanIn_saveAll.
  - destruct (scan_cases c minutes level net snapshot w)
      as [->|(t & t' & Hdb & _ & Hs & (l & _ & -> & _))]; [exact H|].
    apply NoActiveScanIn_saveAll. cbn [database NoActiveScanIn].
    rewrite Hdb in H. refine (NoActiveScan_saveScan _ t t' _ Hs H). reflexivity.
Qed.

(** X23: neither the monitor, in any session, nor the background task
    ever stores a scan flagged generation-active: a database without such a
    scan stays without one. *)
Theorem no_active_scan_is_stored (db : option DatabaseService.Tables) :
  NoActiveScanIn db ->
  (forall actions w, database w = db -> NoActiveScanIn (database (session actions w)))
  /\ (forall c minutes random yesterday r t',
        BackgroundService.executeBackgroundTask c minutes random yesterday db = Some (r, t') ->
        NoActiveScan t').
Proof.
  intros H. split.
  - intros actions w <-.
    apply (session_invariant (fun w' => NoActiveScanIn (database w'))); [|exact H].
    exact NoActiveScanIn_act.
  - intros c minutes random yesterday r t'.
    unfold BackgroundService.executeBackgroundTask. cbv zeta.
    destruct db as [t|].
    2:{ cbn [DatabaseOps.saveScan].
        change (fold_left (fun db a => DatabaseService.saveAnomaly a db) ?l None)
          with (saveAll l None). now rewrite saveAll_None. }
    cbn [DatabaseOps.saveScan].
    match goal with
    | |- context [fold_left _ ?l (Some ?t1)] =>
        change (fold_left (fun db a => DatabaseService.saveAnomaly a db) l (Some t1))
          with (saveAll l (Some t1));
        destruct (saveAll_Some l t1) as (t2 & -> & _ & Hs & _)
    end.
    assert (H2 : NoActiveScan t2).
    { unfold NoActiveScan in *. rewrite Hs. cbn [DatabaseService.scans].
      apply Forall_app. split; [exact H|]. now repeat constructor. }
    destruct (_ && _); [rewrite generateDailyReport_open|]; intros [= _ <-]; exact H2.
Qed.

Lemma no_active_scan_is_stored_witness :
  NoActiveScanIn (Some DatabaseService.emptyTables)
  /\ NoActiveScanIn (database (session [SampleSession.start; SampleSession.tick]
                                       SampleWorld.fresh)).
Proof.
  assert (H : NoActiveScanIn (Some DatabaseService.emptyTables)) by constructor.
  split; [exact H|].
  exact (proj1 (no_active_scan_is_stored _ H) _ SampleWorld.fresh eq_refl).
Defined.

End SessionFacts.

(* ===================================================================== *)
(** ** Buffers, scans and the background task *)
(* ===================================================================== *)

Section ScanFacts.
Import Js SensorMonitor Session Spec Invariant.
Local Open Scope float_scope.

(** *** Frequency buffers *)

Lemma frequencyBuffers_recordAnomaly c d (w : World) :
  frequencyBuffers (monitor (recordAnomaly c d w)) = frequencyBuffers (monitor w).
Proof. unfold recordAnomaly. now destruct (DatabaseService.saveAnomaly _ _). Qed.

Lemma frequencyBuffers_detectFrequencyPattern c value target sensorType (w : World) :
  frequencyBuffers (monitor (detectFrequencyPattern c value target sensorType w))
  = Some (<[sensorType :=
             List.filter (fun item => (now c - 10000 <? sampleTimestamp item)%Z)
               (pushed (monitor w) sensorType
                  {| sampleValue := value; sampleTimestamp := now c |})]>
          (default ∅ (frequencyBuffers (monitor w)))).
Proof.
  pose proof (detectFrequencyPattern_estimate c value target sensorType w) as Hd.
  cbv zeta in Hd. rewrite Hd.
  destruct (estimate _); [|reflexivity].
  destruct (lt _ _); [|reflexivity].
  now rewrite frequencyBuffers_recordAnomaly.
Qed.

(** X24: every call of [detectFrequencyPattern], whether it records a
    match or not, leaves in the buffer of its channel the samples that were
    there and are less than ten seconds old, followed by the new sample;
    the buffers of the other channels are left as they are. *)
Theorem frequency_buffer_window c value target sensorType (w : World) :
  let w' := detectFrequencyPattern c value target sensorType w in
  bufferOf (monitor w') sensorType
  = List.filter (fun item => (now c - 10000 <? sampleTimestamp item)%Z)
      (bufferOf (monitor w) sensorType)
    ++ [{| sampleValue := value; sampleTimestamp := now c |}]
  /\ Forall (fun item => (now c - 10000 < sampleTimestamp item)%Z)
       (bufferOf (monitor w') sensorType)
  /\ (forall other, other <> sensorType ->
        bufferOf (monitor w') other = bufferOf (monitor w) other).
Proof.
  cbv zeta.
  assert (E : bufferOf (monitor (detectFrequencyPattern c value target sensorType w)) sensorType
              = List.filter (fun item => (now c - 10000 <? sampleTimestamp item)%Z)
                  (pushed (monitor w) sensorType
                     {| sampleValue := value; sampleTimestamp := now c |})).
  { unfold bufferOf. rewrite frequencyBuffers_detectFrequencyPattern.
    unfold default at 2. cbn [from_option id]. now rewrite lookup_insert_eq. }
  split; [|split].
  - rewrite E. unfold pushed, bufferOf. rewrite List.filter_app. f_equal.
    cbn [List.filter sampleTimestamp].
    assert ((now c - 10000 <? now c)%Z = true) as -> by (apply Z.ltb_lt; lia).
    reflexivity.
  - rewrite E. apply List.Forall_forall. intros s Hs.
    apply filter_In in Hs as [_ Hs]. now apply Z.ltb_lt.
  - intros other Hother. unfold bufferOf.
    rewrite frequencyBuffers_detectFrequencyPattern.
    unfold default at 2. cbn [from_option id].
    now rewrite lookup_insert_ne by congruence.
Qed.

Lemma gt_irreflexive (x : float) : gt x x = false.
Proof.
  destruct (gt x x) eqn:H; [|reflexivity].
  now rewrite (gt_asymmetric x x H) in H.
Qed.

Lemma findPeaks_constant (v : float) (l : list Sample) :
  Forall (fun s => sampleValue s = v) l -> findPeaks l = [].
Proof.
  intros H. induction H as [|prev l Hp Hl IH]; [reflexivity|].
  destruct l as [|cur [|next l]]; [reflexivity|reflexivity|].
  change (findPeaks (prev :: cur :: next :: l))
    with (if gt (sampleValue cur) (sampleValue prev)
             && gt (sampleValue cur) (sampleValue next)
          then cur :: findPeaks (cur :: next :: l)
          else findPeaks (cur :: next :: l)).
  inversion Hl as [|? ? Hc _]; subst.
  rewrite Hc, gt_irreflexive. exact IH.
Qed.

Lemma no_peak_no_match c value target sensorType (w : World) :
  (length (findPeaks (pushed (monitor w) sensorType
             {| sampleValue := value; sampleTimestamp := now c |})) < 2)%nat ->
  lt (abs (0 - target)) 0.1 = false ->
  anomalies (monitor (detectFrequencyPattern c value target sensorType w))
  = anomalies (monitor w)
  /\ database (detectFrequencyPattern c value target sensorType w) = database w
  /\ alerts (detectFrequencyPattern c value target sensorType w) = alerts w.
Proof.
  intros Hp Ht.
  pose proof (detectFrequencyPattern_estimate c value target sensorType w) as Hd.
  cbv zeta in Hd. rewrite Hd. unfold estimate.
  destruct (10 <? length _)%nat; [|now repeat split].
  unfold estimateFrequency.
  destruct (Nat.ltb_spec (length (findPeaks (pushed (monitor w) sensorType
              {| sampleValue := value; sampleTimestamp := now c |}))) 2); [|lia].
  rewrite Ht. now repeat split.
Qed.

(** X25: a signal that does not move is never read as a resonance: when
    the buffered samples of a channel and the new sample all carry the same
    value, [detectFrequencyPattern] records no anomaly for either of the
    program's target frequencies, however many samples there are. *)
Theorem constant_signal_no_match c value target sensorType (w : World) :
  Forall (fun s => sampleValue s = value) (bufferOf (monitor w) sensorType) ->
  target = 1.038 \/ target = 0.962 ->
  let w' := detectFrequencyPattern c value target sensorType w in
  produced w w' = []
  /\ database w' = database w
  /\ alerts w' = alerts w.
Proof.
  intros Hc Ht. cbv zeta.
  assert (Hp : findPeaks (pushed (monitor w) sensorType
                 {| sampleValue := value; sampleTimestamp := now c |}) = []).
  { apply (findPeaks_constant value). unfold pushed.
    apply Forall_app. split; [exact Hc|]. now repeat constructor. }
  destruct (no_peak_no_match c value target sensorType w) as (Ha & Hd & Hl).
  - rewrite Hp. cbn. lia.
  - now destruct Ht as [-> | ->].
  - split; [now apply produced_none|]. now split.
Qed.

Lemma constant_signal_no_match_witness :
  produced SampleSession.atRest
    (detectFrequencyPattern SampleWorld.clock 9.81 1.038 "acceleration" SampleSession.atRest)
  = []
  /\ length (bufferOf (monitor SampleSession.atRest) "acceleration") = 12%nat.
Proof.
  split; [|reflexivity].
  refine (proj1 (constant_signal_no_match SampleWorld.clock 9.81 1.038 "acceleration"
                   SampleSession.atRest _ _)).
  - vm_compute. repeat constructor.
  - now left.
Defined.

(** *** The periodic scan *)

(** X26: on an open database, a run of the periodic scan of a running
    monitor saves exactly one scan, stamped with the time of the run,
    carrying the number of anomalies the monitor lists at that moment and
    never flagged generation-active, and re-arms itself; outside the first
    minute of an hour it records no anomaly. *)
Theorem scan_saves_one_row c minutes level networkType snapshot (w : World)
    (t : DatabaseService.Tables) :
  isMonitoring (monitor w) = true ->
  database w = Some t ->
  let r := scan c minutes level networkType snapshot w in
  snd r = true
  /\ (exists t' row,
        database (fst r) = Some t'
        /\ DatabaseService.scans t' = DatabaseService.scans t ++ [row]
        /\ DatabaseService.sr_id row = (DatabaseService.scans_seq t + 1)%Z
        /\ DatabaseService.sr_timestamp row = now c
        /\ DatabaseService.sr_anomaly_count row
           = Z.of_nat (length (anomalies (monitor w)))
        /\ DatabaseService.sr_state51_active row = 0%Z)
  /\ (minutes <> 0%Z -> anomalies (monitor (fst r)) = anomalies (monitor w)).
Proof.
  intros Hm Hdb. cbv zeta. unfold scan. rewrite Hm, Hdb. cbn [negb DatabaseOps.saveScan].
  destruct (Z.eqb_spec minutes 0) as [->|Hne].
  - set (w1 := {| monitor := monitor w; database := _; alerts := _; listeners := _ |}).
    destruct (analyzeHourlyPatterns c w1) as [w'|] eqn:Ha.
    2:{ unfold analyzeHourlyPatterns in Ha. discriminate Ha. }
    cbn [fst snd]. split; [reflexivity|]. split; [|now intros []].
    destruct (analyzeHourlyPatterns_Recording c w1 w' Ha) as (l & _ & D & _).
    subst w1. cbn [database] in D.
    match type of D with
    | _ = saveAll l (Some ?t1) => destruct (saveAll_Some l t1) as (t2 & Hs & _ & Hsc & _)
    end.
    rewrite Hs in D. eexists. eexists. split; [exact D|].
    rewrite Hsc. cbn [DatabaseService.scans]. now repeat split.
  - cbn [fst snd database monitor]. split; [reflexivity|]. split; [|reflexivity].
    eexists. eexists. split; [reflexivity|]. cbn [DatabaseService.scans].
    now repeat split.
Qed.

Lemma scan_saves_one_row_witness :
  isMonitoring (monitor (session [SampleSession.start] SampleWorld.fresh)) = true
  /\ snd (scan SampleWorld.clock 30 0.5 "WIFI" SampleSession.snapshot
            (session [SampleSession.start] SampleWorld.fresh)) = true.
Proof.
  split; [reflexivity|].
  exact (proj1 (scan_saves_one_row SampleWorld.clock 30 0.5 "WIFI" SampleSession.snapshot
                  (session [SampleSession.start] SampleWorld.fresh)
                  DatabaseService.emptyTables eq_refl eq_refl)).
Defined.

(** *** The background task *)



End ScanFacts.
